(** * Metricity: the Discord event handlers of [metricity/bot.py]

    A shallow embedding of the event handlers of the Metricity bot
    ([sync_channels], [gen_chunks], [on_guild_available], [on_member_join],
    [on_member_update], [on_message]).

    Each coroutine becomes a [prog]: a command tree whose nodes are the
    awaited store calls (gino's [Model.get], [Model.create],
    [row.update(...).apply()], [User.bulk_upsert]) and the operations on the
    two [asyncio.Event] gates.  A failing store call hands [false] to its
    continuation, which reproduces the [try]/[except] (or the absence of one)
    of the source.  Two interpreters are given: [run] executes one handler
    alone, and [cstep]/[sched] interleave several handlers at their await
    points, as the asyncio event loop does. *)

From Stdlib Require Import ZArith String Bool Lia.
From stdpp Require Import base gmap list strings.

Open Scope Z_scope.
#[local] Set Warnings "-register-all".

(** ** Python values, for the comparisons written in the source *)

Inductive pyval :=
| PyNone
| PyBool (b : bool)
| PyInt (z : Z)
| PyStr (s : string)
| PyList (l : list pyval).

(** Python's [==]: [bool] is a subclass of [int] ([True == 1]); a list is
    equal only to a list with equal elements; other mixed pairs are unequal. *)
Fixpoint py_eq (a b : pyval) : bool :=
  match a, b with
  | PyNone, PyNone => true
  | PyBool x, PyBool y => Bool.eqb x y
  | PyBool x, PyInt z => Z.eqb (Z.b2z x) z
  | PyInt z, PyBool x => Z.eqb z (Z.b2z x)
  | PyInt x, PyInt y => Z.eqb x y
  | PyStr x, PyStr y => String.eqb x y
  | PyList xs, PyList ys =>
      (fix go (xs ys : list pyval) : bool :=
         match xs, ys with
         | [], [] => true
         | x :: xs', y :: ys' => py_eq x y && go xs' ys'
         | _, _ => false
         end) xs ys
  | _, _ => false
  end.

Definition py_ne (a b : pyval) : bool := negb (py_eq a b).

(** [x in l] for a list [l] (only ever applied to lists here). *)
Definition py_in (x l : pyval) : bool :=
  match l with
  | PyList xs => existsb (py_eq x) xs
  | _ => false
  end.

(** Python chains comparisons: [a in b != c] means [(a in b) and (b != c)]. *)
Definition py_chain_in_ne (a b c : pyval) : bool := py_in a b && py_ne b c.

Definition py_opt_str (o : option string) : pyval :=
  match o with Some s => PyStr s | None => PyNone end.

Definition py_opt_int (o : option Z) : pyval :=
  match o with Some z => PyInt z | None => PyNone end.

Definition py_int_list (l : list Z) : pyval := PyList (map PyInt l).

(** ** Configuration ([metricity.config.BotConfig]) *)

Record bot_config := {
  guild_id : Z;
  ignore_categories : list Z;
  staff_categories : list Z;
  staff_role_id : Z
}.

(** ** Objects received from discord.py *)

Inductive channel_type := CategoryChannel | VoiceChannel | TextChannel.

(** A guild channel; [gch_category] is the id of [channel.category], or
    [None] when the channel has no parent category. *)
Record gchannel := {
  gch_id : Z;
  gch_name : string;
  gch_type : channel_type;
  gch_category : option Z
}.

(** A [discord.Member]; [m_roles] holds [role.id] for [role in member.roles]. *)
Record member := {
  m_id : Z;
  m_name : string;
  m_avatar : option string;
  m_joined_at : option Z;
  m_created_at : Z;
  m_roles : list Z;
  m_bot : bool;
  m_guild_id : Z
}.

Record guild := {
  g_id : Z;
  g_channels : list gchannel;
  g_members : list member
}.

(** A [discord.Message]: [msg_guild] is [message.guild.id] or [None] for a
    direct message, [msg_channel_category] the id of [message.channel.category]. *)
Record dmessage := {
  msg_id : Z;
  msg_guild : option Z;
  msg_channel_id : Z;
  msg_channel_category : option Z;
  msg_author_id : Z;
  msg_created_at : Z
}.

(** ** Rows of the store ([metricity.models]), keyed by their [id] *)

Record category_row := { cat_name : string }.

Record channel_row := {
  chan_name : string;
  chan_category_id : option Z;
  chan_is_staff : bool
}.

Record user_row := {
  u_name : string;
  u_avatar_hash : option string;
  u_joined_at : option Z;
  u_created_at : Z;
  u_is_staff : bool;
  u_bot : bool;
  u_opt_out : bool
}.

Record message_row := {
  mr_channel_id : Z;
  mr_author_id : Z;
  mr_created_at : Z
}.

(** One row of the bulk upsert of [on_guild_available] (the dict built there). *)
Record bulk_user := {
  bu_id : Z;
  bu_name : string;
  bu_avatar_hash : option string;
  bu_joined_at : option Z;
  bu_created_at : Z;
  bu_is_staff : bool;
  bu_bot : bool
}.

Record db := {
  categories : gmap Z category_row;
  channels : gmap Z channel_row;
  users : gmap Z user_row;
  messages : gmap Z message_row
}.

(** The process state: the store and the two module-level [asyncio.Event]s. *)
Record state := {
  st_db : db;
  sync_process_complete : bool;
  channel_sync_in_progress : bool
}.

Inductive gate := SyncProcessComplete | ChannelSyncInProgress.

Inductive py_error := UniqueViolationError | AttributeError.

Inductive table := TCategory | TChannel | TUser | TMessage.

(** ** The record-store adapter (gino models of [metricity.models]) *)

Section Store.
Context {V : Type}.

(** [Model.create]: an [INSERT] that fails with [UniqueViolationError]
    ([None] here) when the primary key is already taken. *)
Definition gm_create (i : Z) (v : V) (m : gmap Z V) : option (gmap Z V) :=
  match m !! i with
  | Some _ => None
  | None => Some (<[i := v]> m)
  end.

(** [row.update(...).apply()]: an [UPDATE ... WHERE id = i] of the given
    columns; it touches no row when the row is gone. *)
Definition gm_update (i : Z) (f : V -> V) (m : gmap Z V) : gmap Z V :=
  alter f i m.

End Store.

(** Modelled from the spec: the column defaults of [User] ([metricity/models.py]
    is not part of the sources).  [opt_out] defaults to false (§6 of the spec);
    [bot] is only set by the bulk path (§3), so a single create leaves its
    default, false. *)
Definition user_create_row (name : string) (avatar : option string)
    (joined_at : option Z) (created_at : Z) (is_staff : bool) : user_row :=
  {| u_name := name; u_avatar_hash := avatar; u_joined_at := joined_at;
     u_created_at := created_at; u_is_staff := is_staff; u_bot := false;
     u_opt_out := false |}.

(** [row.update(name=..., avatar_hash=..., joined_at=..., created_at=...,
    is_staff=...)]: the named columns are replaced, [bot] and [opt_out] kept. *)
Definition user_set_fields (name : string) (avatar : option string)
    (joined_at : option Z) (created_at : Z) (is_staff : bool)
    (r : user_row) : user_row :=
  {| u_name := name; u_avatar_hash := avatar; u_joined_at := joined_at;
     u_created_at := created_at; u_is_staff := is_staff; u_bot := u_bot r;
     u_opt_out := u_opt_out r |}.

(** Modelled from the spec: [User.bulk_upsert] (defined in the models, not
    in the sources) is an insert-or-replace keyed by id (§4.1); the columns
    of the dict are written, [opt_out] is kept on an existing row and false
    on a new one. *)
Definition upsert_one (u : bulk_user) (m : gmap Z user_row) : gmap Z user_row :=
  let opt := match m !! bu_id u with Some r => u_opt_out r | None => false end in
  <[bu_id u := {| u_name := bu_name u; u_avatar_hash := bu_avatar_hash u;
                  u_joined_at := bu_joined_at u; u_created_at := bu_created_at u;
                  u_is_staff := bu_is_staff u; u_bot := bu_bot u;
                  u_opt_out := opt |}]> m.

Definition bulk_upsert (rows : list bulk_user) (m : gmap Z user_row) : gmap Z user_row :=
  fold_left (fun acc u => upsert_one u acc) rows m.

Definition set_categories (m : gmap Z category_row) (s : state) : state :=
  {| st_db := {| categories := m; channels := channels (st_db s);
                 users := users (st_db s); messages := messages (st_db s) |};
     sync_process_complete := sync_process_complete s;
     channel_sync_in_progress := channel_sync_in_progress s |}.

Definition set_channels (m : gmap Z channel_row) (s : state) : state :=
  {| st_db := {| categories := categories (st_db s); channels := m;
                 users := users (st_db s); messages := messages (st_db s) |};
     sync_process_complete := sync_process_complete s;
     channel_sync_in_progress := channel_sync_in_progress s |}.

Definition set_users (m : gmap Z user_row) (s : state) : state :=
  {| st_db := {| categories := categories (st_db s); channels := channels (st_db s);
                 users := m; messages := messages (st_db s) |};
     sync_process_complete := sync_process_complete s;
     channel_sync_in_progress := channel_sync_in_progress s |}.

Definition set_messages (m : gmap Z message_row) (s : state) : state :=
  {| st_db := {| categories := categories (st_db s); channels := channels (st_db s);
                 users := users (st_db s); messages := m |};
     sync_process_complete := sync_process_complete s;
     channel_sync_in_progress := channel_sync_in_progress s |}.

Definition gate_value (g : gate) (s : state) : bool :=
  match g with
  | SyncProcessComplete => sync_process_complete s
  | ChannelSyncInProgress => channel_sync_in_progress s
  end.

(** [Event.set()] / [Event.clear()]. *)
Definition set_gate (g : gate) (b : bool) (s : state) : state :=
  match g with
  | SyncProcessComplete =>
      {| st_db := st_db s; sync_process_complete := b;
         channel_sync_in_progress := channel_sync_in_progress s |}
  | ChannelSyncInProgress =>
      {| st_db := st_db s; sync_process_complete := sync_process_complete s;
         channel_sync_in_progress := b |}
  end.

(** ** Coroutines as command trees

    Every constructor but [Ret] and [Raise] is one awaited call (or one gate
    operation); the continuation receives its result.  A create hands its
    continuation [true] on success and [false] when it raised
    [UniqueViolationError]. *)
Inductive prog :=
| Ret
| Raise (e : py_error)
| ClearEv (g : gate) (k : prog)
| SetEv (g : gate) (k : prog)
| WaitEv (g : gate) (k : prog)
| CategoryGet (i : Z) (k : option category_row -> prog)
| CategoryCreate (i : Z) (r : category_row) (k : bool -> prog)
| CategoryUpdate (i : Z) (f : category_row -> category_row) (k : prog)
| ChannelGet (i : Z) (k : option channel_row -> prog)
| ChannelCreate (i : Z) (r : channel_row) (k : bool -> prog)
| ChannelUpdate (i : Z) (f : channel_row -> channel_row) (k : prog)
| UserGet (i : Z) (k : option user_row -> prog)
| UserCreate (i : Z) (r : user_row) (k : bool -> prog)
| UserUpdate (i : Z) (f : user_row -> user_row) (k : prog)
| UserBulkUpsert (rows : list bulk_user) (k : prog)
| MessageCreate (i : Z) (r : message_row) (k : bool -> prog).

(** [await p] followed by [q]: an exception raised in [p] skips [q]. *)
Fixpoint prog_seq (p q : prog) : prog :=
  match p with
  | Ret => q
  | Raise e => Raise e
  | ClearEv g k => ClearEv g (prog_seq k q)
  | SetEv g k => SetEv g (prog_seq k q)
  | WaitEv g k => WaitEv g (prog_seq k q)
  | CategoryGet i k => CategoryGet i (fun o => prog_seq (k o) q)
  | CategoryCreate i r k => CategoryCreate i r (fun b => prog_seq (k b) q)
  | CategoryUpdate i f k => CategoryUpdate i f (prog_seq k q)
  | ChannelGet i k => ChannelGet i (fun o => prog_seq (k o) q)
  | ChannelCreate i r k => ChannelCreate i r (fun b => prog_seq (k b) q)
  | ChannelUpdate i f k => ChannelUpdate i f (prog_seq k q)
  | UserGet i k => UserGet i (fun o => prog_seq (k o) q)
  | UserCreate i r k => UserCreate i r (fun b => prog_seq (k b) q)
  | UserUpdate i f k => UserUpdate i f (prog_seq k q)
  | UserBulkUpsert rows k => UserBulkUpsert rows (prog_seq k q)
  | MessageCreate i r k => MessageCreate i r (fun b => prog_seq (k b) q)
  end.

(** What an executed command did, as seen from outside. *)
Inductive event :=
| EClear (g : gate)
| ESet (g : gate)
| EWait (g : gate)
| EGet (t : table) (i : Z)
| ECreate (t : table) (i : Z) (ok : bool)
| EUpdate (t : table) (i : Z)
| EBulkUpsert (n : nat).

(** One atomic step of one coroutine; [None] when it has returned, raised,
    or waits on a gate that is not set. *)
Definition step1 (s : state) (p : prog) : option (event * state * prog) :=
  match p with
  | Ret | Raise _ => None
  | ClearEv g k => Some (EClear g, set_gate g false s, k)
  | SetEv g k => Some (ESet g, set_gate g true s, k)
  | WaitEv g k => if gate_value g s then Some (EWait g, s, k) else None
  | CategoryGet i k => Some (EGet TCategory i, s, k (categories (st_db s) !! i))
  | CategoryCreate i r k =>
      match gm_create i r (categories (st_db s)) with
      | Some m => Some (ECreate TCategory i true, set_categories m s, k true)
      | None => Some (ECreate TCategory i false, s, k false)
      end
  | CategoryUpdate i f k =>
      Some (EUpdate TCategory i, set_categories (gm_update i f (categories (st_db s))) s, k)
  | ChannelGet i k => Some (EGet TChannel i, s, k (channels (st_db s) !! i))
  | ChannelCreate i r k =>
      match gm_create i r (channels (st_db s)) with
      | Some m => Some (ECreate TChannel i true, set_channels m s, k true)
      | None => Some (ECreate TChannel i false, s, k false)
      end
  | ChannelUpdate i f k =>
      Some (EUpdate TChannel i, set_channels (gm_update i f (channels (st_db s))) s, k)
  | UserGet i k => Some (EGet TUser i, s, k (users (st_db s) !! i))
  | UserCreate i r k =>
      match gm_create i r (users (st_db s)) with
      | Some m => Some (ECreate TUser i true, set_users m s, k true)
      | None => Some (ECreate TUser i false, s, k false)
      end
  | UserUpdate i f k =>
      Some (EUpdate TUser i, set_users (gm_update i f (users (st_db s))) s, k)
  | UserBulkUpsert rows k =>
      Some (EBulkUpsert (length rows), set_users (bulk_upsert rows (users (st_db s))) s, k)
  | MessageCreate i r k =>
      match gm_create i r (messages (st_db s)) with
      | Some m => Some (ECreate TMessage i true, set_messages m s, k true)
      | None => Some (ECreate TMessage i false, s, k false)
      end
  end.

Inductive outcome := Finished | Raised (e : py_error) | Blocked (g : gate).

(** Running one coroutine alone until it returns, raises or blocks. *)
Fixpoint run (s : state) (p : prog) {struct p} : outcome * state * list event :=
  let push e r := match r with (o, s', t) => (o, s', e :: t) end in
  match p with
  | Ret => (Finished, s, [])
  | Raise e => (Raised e, s, [])
  | WaitEv g k => if gate_value g s then push (EWait g) (run s k) else (Blocked g, s, [])
  | ClearEv g k => push (EClear g) (run (set_gate g false s) k)
  | SetEv g k => push (ESet g) (run (set_gate g true s) k)
  | CategoryGet i k => push (EGet TCategory i) (run s (k (categories (st_db s) !! i)))
  | CategoryCreate i r k =>
      match gm_create i r (categories (st_db s)) with
      | Some m => push (ECreate TCategory i true) (run (set_categories m s) (k true))
      | None => push (ECreate TCategory i false) (run s (k false))
      end
  | CategoryUpdate i f k =>
      push (EUpdate TCategory i) (run (set_categories (gm_update i f (categories (st_db s))) s) k)
  | ChannelGet i k => push (EGet TChannel i) (run s (k (channels (st_db s) !! i)))
  | ChannelCreate i r k =>
      match gm_create i r (channels (st_db s)) with
      | Some m => push (ECreate TChannel i true) (run (set_channels m s) (k true))
      | None => push (ECreate TChannel i false) (run s (k false))
      end
  | ChannelUpdate i f k =>
      push (EUpdate TChannel i) (run (set_channels (gm_update i f (channels (st_db s))) s) k)
  | UserGet i k => push (EGet TUser i) (run s (k (users (st_db s) !! i)))
  | UserCreate i r k =>
      match gm_create i r (users (st_db s)) with
      | Some m => push (ECreate TUser i true) (run (set_users m s) (k true))
      | None => push (ECreate TUser i false) (run s (k false))
      end
  | UserUpdate i f k =>
      push (EUpdate TUser i) (run (set_users (gm_update i f (users (st_db s))) s) k)
  | UserBulkUpsert rows k =>
      push (EBulkUpsert (length rows)) (run (set_users (bulk_upsert rows (users (st_db s))) s) k)
  | MessageCreate i r k =>
      match gm_create i r (messages (st_db s)) with
      | Some m => push (ECreate TMessage i true) (run (set_messages m s) (k true))
      | None => push (ECreate TMessage i false) (run s (k false))
      end
  end.

(** ** [sync_channels] (lines 29-76) *)

Section Handlers.
Variable cfg : bot_config.

Definition is_category (ch : gchannel) : bool :=
  match gch_type ch with CategoryChannel => true | _ => false end.

Definition is_voice (ch : gchannel) : bool :=
  match gch_type ch with VoiceChannel => true | _ => false end.

(** [channel.category.id if channel.category else None] *)
Definition category_id_of (ch : gchannel) : option Z := gch_category ch.

(** [True if channel.category.id in BotConfig.staff_categories else False]:
    reading [.id] of [None] raises [AttributeError] ([None] here). *)
Definition channel_is_staff (ch : gchannel) : option bool :=
  match gch_category ch with
  | Some c => Some (py_in (PyInt c) (py_int_list (staff_categories cfg)))
  | None => None
  end.

Definition channel_row_of (ch : gchannel) (is_staff : bool) : channel_row :=
  {| chan_name := gch_name ch; chan_category_id := category_id_of ch;
     chan_is_staff := is_staff |}.

(** The first loop: categories. *)
Fixpoint sync_categories (chs : list gchannel) (k : prog) : prog :=
  match chs with
  | [] => k
  | ch :: rest =>
      if is_category ch then
        CategoryGet (gch_id ch) (fun o =>
          match o with
          | Some _ =>
              CategoryUpdate (gch_id ch) (fun _ => {| cat_name := gch_name ch |})
                (sync_categories rest k)
          | None =>
              CategoryCreate (gch_id ch) {| cat_name := gch_name ch |} (fun ok =>
                if ok then sync_categories rest k else Raise UniqueViolationError)
          end)
      else sync_categories rest k
  end.

(** [if channel.category: if channel.category.id in BotConfig.ignore_categories: continue] *)
Definition in_ignored_category (ch : gchannel) : bool :=
  match gch_category ch with
  | Some c => py_in (PyInt c) (py_int_list (ignore_categories cfg))
  | None => false
  end.

(** The second loop: channels.  The keyword arguments of [update]/[create]
    are evaluated after [Channel.get] returned, [is_staff] last. *)
Fixpoint sync_chans (chs : list gchannel) (k : prog) : prog :=
  match chs with
  | [] => k
  | ch :: rest =>
      if in_ignored_category ch then sync_chans rest k
      else if negb (is_category ch) && negb (is_voice ch) then
        ChannelGet (gch_id ch) (fun o =>
          match o with
          | Some _ =>
              match channel_is_staff ch with
              | Some b => ChannelUpdate (gch_id ch) (fun _ => channel_row_of ch b)
                            (sync_chans rest k)
              | None => Raise AttributeError
              end
          | None =>
              match channel_is_staff ch with
              | Some b => ChannelCreate (gch_id ch) (channel_row_of ch b) (fun ok =>
                            if ok then sync_chans rest k else Raise UniqueViolationError)
              | None => Raise AttributeError
              end
          end)
      else sync_chans rest k
  end.

Definition sync_channels (g : guild) : prog :=
  ClearEv ChannelSyncInProgress
    (sync_categories (g_channels g)
      (sync_chans (g_channels g) (SetEv ChannelSyncInProgress Ret))).

(** ** [gen_chunks] (lines 79-85) *)

(** [range(0, stop, step)] for [step > 0]: [ceil(stop / step)] values. *)
Definition py_range0 (stop step : nat) : list nat :=
  map (fun j => (j * step)%nat) (seq 0 ((stop + step - 1) / step)).

(** [l[i:j]] for [0 <= i <= j]. *)
Definition py_slice {A} (l : list A) (i j : nat) : list A :=
  firstn (j - i) (skipn i l).

Definition gen_chunks {A} (chunk_src : list A) (chunk_size : nat) : list (list A) :=
  map (fun i => py_slice chunk_src i (i + chunk_size))
      (py_range0 (length chunk_src) chunk_size).

(** ** [on_guild_available] (lines 113-148) *)

(** [BotConfig.staff_role_id in [role.id for role in member.roles]] *)
Definition member_is_staff (m : member) : bool :=
  py_in (PyInt (staff_role_id cfg)) (py_int_list (m_roles m)).

Definition bulk_row_of (m : member) : bulk_user :=
  {| bu_id := m_id m; bu_name := m_name m; bu_avatar_hash := m_avatar m;
     bu_joined_at := m_joined_at m; bu_created_at := m_created_at m;
     bu_is_staff := member_is_staff m; bu_bot := m_bot m |}.

Fixpoint upsert_chunks (chunks : list (list bulk_user)) (k : prog) : prog :=
  match chunks with
  | [] => k
  | c :: rest => UserBulkUpsert c (upsert_chunks rest k)
  end.

Definition on_guild_available (g : guild) : prog :=
  if negb (Z.eqb (g_id g) (guild_id cfg)) then Ret
  else prog_seq (sync_channels g)
         (upsert_chunks (gen_chunks (map bulk_row_of (g_members g)) 2500)
            (SetEv SyncProcessComplete Ret)).

(** ** [on_guild_channel_create] (lines 95-101) and [on_guild_channel_update]
    (lines 104-110); [channel_guild] is [channel.guild]. *)

Definition on_guild_channel_create (channel_guild : guild) : prog :=
  if negb (Z.eqb (g_id channel_guild) (guild_id cfg)) then Ret
  else sync_channels channel_guild.

Definition on_guild_channel_update (before : gchannel) (channel_guild : guild) : prog :=
  if negb (Z.eqb (g_id channel_guild) (guild_id cfg)) then Ret
  else sync_channels channel_guild.

(** ** [on_member_join] (lines 151-179) and [on_member_update] (lines 182-220) *)

Definition member_update_fields (m : member) : user_row -> user_row :=
  user_set_fields (m_name m) (m_avatar m) (m_joined_at m) (m_created_at m)
    (member_is_staff m).

Definition member_create_row (m : member) : user_row :=
  user_create_row (m_name m) (m_avatar m) (m_joined_at m) (m_created_at m)
    (member_is_staff m).

Definition on_member_join (m : member) : prog :=
  WaitEv SyncProcessComplete
    (if negb (Z.eqb (m_guild_id m) (guild_id cfg)) then Ret
     else UserGet (m_id m) (fun o =>
       match o with
       | Some _ => UserUpdate (m_id m) (member_update_fields m) Ret
       | None =>
           UserCreate (m_id m) (member_create_row m) (fun ok =>
             if ok then Ret else Ret (* except UniqueViolationError: pass *))
       end)).

(** The test of line 195-200, as Python parses it: the last disjunct is the
    chained comparison [(staff_role_id in roles) and (roles != db_user.is_staff)]. *)
Definition update_needed (db_user : user_row) (m : member) : bool :=
  py_ne (PyStr (u_name db_user)) (PyStr (m_name m))
  || py_ne (py_opt_str (u_avatar_hash db_user)) (py_opt_str (m_avatar m))
  || py_chain_in_ne (PyInt (staff_role_id cfg)) (py_int_list (m_roles m))
                    (PyBool (u_is_staff db_user)).

Definition on_member_update (before m : member) : prog :=
  WaitEv SyncProcessComplete
    (if negb (Z.eqb (m_guild_id m) (guild_id cfg)) then Ret
     else match m_joined_at m with
     | None => Ret
     | Some _ =>
         UserGet (m_id m) (fun o =>
           match o with
           | Some db_user =>
               if update_needed db_user m
               then UserUpdate (m_id m) (member_update_fields m) Ret
               else Ret
           | None =>
               UserCreate (m_id m) (member_create_row m) (fun ok =>
                 if ok then Ret else Ret (* except UniqueViolationError: pass *))
           end)
     end).

(** ** [on_message] (lines 223-250) *)

Definition message_row_of (msg : dmessage) : message_row :=
  {| mr_channel_id := msg_channel_id msg; mr_author_id := msg_author_id msg;
     mr_created_at := msg_created_at msg |}.

Definition on_message (msg : dmessage) : prog :=
  match msg_guild msg with
  | None => Ret
  | Some gid =>
      if negb (Z.eqb gid (guild_id cfg)) then Ret
      else WaitEv ChannelSyncInProgress
        (UserGet (msg_author_id msg) (fun o =>
          match o with
          | Some author =>
              if u_opt_out author then Ret
              else if py_in (py_opt_int (msg_channel_category msg))
                            (py_int_list (ignore_categories cfg))
              then Ret
              else MessageCreate (msg_id msg) (message_row_of msg) (fun ok =>
                     if ok then Ret else Raise UniqueViolationError)
          | None => Ret
          end))
  end.

End Handlers.

(** ** The asyncio event loop: handlers interleaved at their await points

    A configuration is the shared state and the coroutines in flight.  The
    event loop resumes one coroutine [i] for one step.  (In asyncio a
    coroutine runs on until its next real suspension, so a gate operation and
    the store call after it are one step; every interleaving used below
    switches coroutines only at a store call, where asyncio does suspend.) *)
Definition cstep (c : state * list prog) (i : nat)
    : option ((nat * event) * (state * list prog)) :=
  let (s, ts) := c in
  match ts !! i with
  | Some p =>
      match step1 s p with
      | Some (e, s', p') => Some ((i, e), (s', <[i := p']> ts))
      | None => None
      end
  | None => None
  end.

(** Runs a schedule (the coroutine resumed at each step); [None] if some
    scheduled coroutine cannot step. *)
Fixpoint sched (schedule : list nat) (c : state * list prog)
    : option (list (nat * event) * (state * list prog)) :=
  match schedule with
  | [] => Some ([], c)
  | i :: rest =>
      match cstep c i with
      | Some (e, c') =>
          match sched rest c' with
          | Some (t, c'') => Some (e :: t, c'')
          | None => None
          end
      | None => None
      end
  end.

(** ** Effects of the synchroniser, as lists of writes *)

(** Writing a list of rows in order. *)
Definition ins_all {V} (w : list (Z * V)) (m : gmap Z V) : gmap Z V :=
  foldl (fun acc kv => <[kv.1 := kv.2]> acc) m w.

(** The last row written for key [k]. *)
Fixpoint last_write {V} (k : Z) (w : list (Z * V)) : option V :=
  match w with
  | [] => None
  | kv :: w' =>
      match last_write k w' with
      | Some v => Some v
      | None => if Z.eqb k kv.1 then Some kv.2 else None
      end
  end.

(** The rows written by the first loop of [sync_channels]. *)
Fixpoint category_writes (chs : list gchannel) : list (Z * category_row) :=
  match chs with
  | [] => []
  | ch :: rest =>
      if is_category ch then (gch_id ch, {| cat_name := gch_name ch |}) :: category_writes rest
      else category_writes rest
  end.

(** The rows written by the second loop, and the exception that ends it. *)
Fixpoint channel_writes (cfg : bot_config) (chs : list gchannel)
    : list (Z * channel_row) * option py_error :=
  match chs with
  | [] => ([], None)
  | ch :: rest =>
      if in_ignored_category cfg ch then channel_writes cfg rest
      else if negb (is_category ch) && negb (is_voice ch) then
        match channel_is_staff cfg ch with
        | Some b => let (w, e) := channel_writes cfg rest in
                    ((gch_id ch, channel_row_of ch b) :: w, e)
        | None => ([], Some AttributeError)
        end
      else channel_writes cfg rest
  end.

(** Events of the store calls the synchroniser makes. *)
Definition topology_store_event (e : event) : Prop :=
  match e with
  | EGet TCategory _ | ECreate TCategory _ _ | EUpdate TCategory _
  | EGet TChannel _ | ECreate TChannel _ _ | EUpdate TChannel _ => True
  | _ => False
  end.

(** Events of the category calls, and of the channel calls. *)
Definition category_event (e : event) : Prop :=
  match e with
  | EGet TCategory _ | ECreate TCategory _ _ | EUpdate TCategory _ => True
  | _ => False
  end.

Definition channel_event (e : event) : Prop :=
  match e with
  | EGet TChannel _ | ECreate TChannel _ _ | EUpdate TChannel _ => True
  | _ => False
  end.

(** Events that read or write the store. *)
Definition store_event (e : event) : bool :=
  match e with
  | EGet _ _ | ECreate _ _ _ | EUpdate _ _ | EBulkUpsert _ => true
  | EClear _ | ESet _ | EWait _ => false
  end.

Definition store_write_event (e : event) : bool :=
  match e with
  | ECreate _ _ _ | EUpdate _ _ | EBulkUpsert _ => true
  | _ => false
  end.

(** The events of the bulk bootstrap: the upserts and the setting of the
    membership gate. *)
Definition membership_event (e : event) : bool :=
  match e with
  | EBulkUpsert _ | ESet SyncProcessComplete => true
  | _ => false
  end.

Definition with_prefix (t : list event) (r : outcome * state * list event)
    : outcome * state * list event :=
  match r with (o, s, t') => (o, s, t ++ t') end.

Definition is_finished (o : outcome) : bool :=
  match o with Finished => true | _ => false end.

(** A text channel outside any category: the channel on which the second
    loop of [sync_channels] reads [None.id]. *)
Definition uncategorised_text (ch : gchannel) : bool :=
  match gch_type ch, gch_category ch with
  | TextChannel, None => true
  | _, _ => false
  end.

(** ** General lemmas *)

Lemma lookup_ins_all {V} (w : list (Z * V)) (m : gmap Z V) (k : Z) :
  ins_all w m !! k = match last_write k w with Some v => Some v | None => m !! k end.
Proof.
  revert m. induction w as [|[i v] w IH]; intros m; simpl; [reflexivity|].
  unfold ins_all in *; simpl. rewrite IH.
  destruct (last_write k w); [reflexivity|]. simpl.
  destruct (Z.eqb_spec k i) as [->|Hne].
  - by rewrite lookup_insert_eq.
  - by rewrite lookup_insert_ne by congruence.
Qed.

Lemma ins_all_idem {V} (w : list (Z * V)) (m : gmap Z V) :
  ins_all w (ins_all w m) = ins_all w m.
Proof.
  apply map_eq; intros k. rewrite !lookup_ins_all.
  destruct (last_write k w); reflexivity.
Qed.

Lemma ins_all_cons {V} (kv : Z * V) (w : list (Z * V)) (m : gmap Z V) :
  ins_all (kv :: w) m = ins_all w (<[kv.1 := kv.2]> m).
Proof. reflexivity. Qed.

Lemma gm_update_const {V} (i : Z) (v v0 : V) (m : gmap Z V) :
  m !! i = Some v0 -> gm_update i (fun _ => v) m = <[i := v]> m.
Proof.
  intros H. unfold gm_update. apply map_eq; intros k.
  destruct (Z.eq_dec k i) as [->|Hne].
  - by rewrite lookup_alter_eq, lookup_insert_eq, H.
  - by rewrite lookup_alter_ne, lookup_insert_ne by congruence.
Qed.

Lemma gm_create_fresh {V} (i : Z) (v : V) (m : gmap Z V) :
  m !! i = None -> gm_create i v m = Some (<[i := v]> m).
Proof. intros H. unfold gm_create. by rewrite H. Qed.

Lemma with_prefix_app t1 t2 r :
  with_prefix t1 (with_prefix t2 r) = with_prefix (t1 ++ t2) r.
Proof. destruct r as [[o s] t]. simpl. by rewrite app_assoc. Qed.

Lemma run_seq (p q : prog) (s : state) :
  run s (prog_seq p q) =
  match run s p with
  | (Finished, s', t) => with_prefix t (run s' q)
  | r => r
  end.
Proof.
  revert s. induction p; intros s; simpl.
  - by destruct (run s q) as [[o s'] t].
  - reflexivity.
  - rewrite IHp. destruct (run _ p) as [[[] s'] t]; simpl; try reflexivity.
    by destruct (run s' q) as [[o s''] t'].
  - rewrite IHp. destruct (run _ p) as [[[] s'] t]; simpl; try reflexivity.
    by destruct (run s' q) as [[o s''] t'].
  - destruct (gate_value g s); [|reflexivity].
    rewrite IHp. destruct (run _ p) as [[[] s'] t]; simpl; try reflexivity.
    by destruct (run s' q) as [[o s''] t'].
  - rewrite H. destruct (run _ (k _)) as [[[] s'] t]; simpl; try reflexivity.
    by destruct (run s' q) as [[o s''] t'].
  - destruct (gm_create i r _); rewrite H;
      destruct (run _ (k _)) as [[[] s'] t]; simpl; try reflexivity;
      by destruct (run s' q) as [[o s''] t'].
  - rewrite IHp. destruct (run _ p) as [[[] s'] t]; simpl; try reflexivity.
    by destruct (run s' q) as [[o s''] t'].
  - rewrite H. destruct (run _ (k _)) as [[[] s'] t]; simpl; try reflexivity.
    by destruct (run s' q) as [[o s''] t'].
  - destruct (gm_create i r _); rewrite H;
      destruct (run _ (k _)) as [[[] s'] t]; simpl; try reflexivity;
      by destruct (run s' q) as [[o s''] t'].
  - rewrite IHp. destruct (run _ p) as [[[] s'] t]; simpl; try reflexivity.
    by destruct (run s' q) as [[o s''] t'].
  - rewrite H. destruct (run _ (k _)) as [[[] s'] t]; simpl; try reflexivity.
    by destruct (run s' q) as [[o s''] t'].
  - destruct (gm_create i r _); rewrite H;
      destruct (run _ (k _)) as [[[] s'] t]; simpl; try reflexivity;
      by destruct (run s' q) as [[o s''] t'].
  - rewrite IHp. destruct (run _ p) as [[[] s'] t]; simpl; try reflexivity.
    by destruct (run s' q) as [[o s''] t'].
  - rewrite IHp. destruct (run _ p) as [[[] s'] t]; simpl; try reflexivity.
    by destruct (run s' q) as [[o s''] t'].
  - destruct (gm_create i r _); rewrite H;
      destruct (run _ (k _)) as [[[] s'] t]; simpl; try reflexivity;
      by destruct (run s' q) as [[o s''] t'].
Qed.

Lemma push_with_prefix (e : event) (r : outcome * state * list event) :
  (let '(o, s', t) := r in (o, s', e :: t)) = with_prefix [e] r.
Proof. by destruct r as [[o s'] t]. Qed.

Lemma with_prefix_nil r : with_prefix [] r = r.
Proof. by destruct r as [[o s'] t]. Qed.

Section RunEquations.
Variable s : state.

Lemma run_ClearEv g k : run s (ClearEv g k) = with_prefix [EClear g] (run (set_gate g false s) k).
Proof. apply push_with_prefix. Qed.
Lemma run_SetEv g k : run s (SetEv g k) = with_prefix [ESet g] (run (set_gate g true s) k).
Proof. apply push_with_prefix. Qed.
Lemma run_WaitEv_set g k : gate_value g s = true ->
  run s (WaitEv g k) = with_prefix [EWait g] (run s k).
Proof. intros H. simpl. rewrite H. apply push_with_prefix. Qed.
Lemma run_WaitEv_unset g k : gate_value g s = false -> run s (WaitEv g k) = (Blocked g, s, []).
Proof. intros H. simpl. by rewrite H. Qed.
Lemma run_CategoryGet i k :
  run s (CategoryGet i k) = with_prefix [EGet TCategory i] (run s (k (categories (st_db s) !! i))).
Proof. apply push_with_prefix. Qed.
Lemma run_CategoryCreate_fresh i r k : categories (st_db s) !! i = None ->
  run s (CategoryCreate i r k) =
  with_prefix [ECreate TCategory i true] (run (set_categories (<[i := r]> (categories (st_db s))) s) (k true)).
Proof. intros H. simpl. rewrite gm_create_fresh by done. apply push_with_prefix. Qed.
Lemma run_CategoryUpdate i f k :
  run s (CategoryUpdate i f k) =
  with_prefix [EUpdate TCategory i] (run (set_categories (gm_update i f (categories (st_db s))) s) k).
Proof. apply push_with_prefix. Qed.
Lemma run_ChannelGet i k :
  run s (ChannelGet i k) = with_prefix [EGet TChannel i] (run s (k (channels (st_db s) !! i))).
Proof. apply push_with_prefix. Qed.
Lemma run_ChannelCreate_fresh i r k : channels (st_db s) !! i = None ->
  run s (ChannelCreate i r k) =
  with_prefix [ECreate TChannel i true] (run (set_channels (<[i := r]> (channels (st_db s))) s) (k true)).
Proof. intros H. simpl. rewrite gm_create_fresh by done. apply push_with_prefix. Qed.
Lemma run_ChannelUpdate i f k :
  run s (ChannelUpdate i f k) =
  with_prefix [EUpdate TChannel i] (run (set_channels (gm_update i f (channels (st_db s))) s) k).
Proof. apply push_with_prefix. Qed.
Lemma run_UserGet i k :
  run s (UserGet i k) = with_prefix [EGet TUser i] (run s (k (users (st_db s) !! i))).
Proof. apply push_with_prefix. Qed.
Lemma run_UserUpdate i f k :
  run s (UserUpdate i f k) =
  with_prefix [EUpdate TUser i] (run (set_users (gm_update i f (users (st_db s))) s) k).
Proof. apply push_with_prefix. Qed.
Lemma run_UserBulkUpsert rows k :
  run s (UserBulkUpsert rows k) =
  with_prefix [EBulkUpsert (length rows)] (run (set_users (bulk_upsert rows (users (st_db s))) s) k).
Proof. apply push_with_prefix. Qed.

End RunEquations.

Lemma set_categories_same s : set_categories (categories (st_db s)) s = s.
Proof. by destruct s as [[] ? ?]. Qed.
Lemma set_categories_twice m m' s : set_categories m (set_categories m' s) = set_categories m s.
Proof. reflexivity. Qed.
Lemma set_channels_same s : set_channels (channels (st_db s)) s = s.
Proof. by destruct s as [[] ? ?]. Qed.
Lemma set_channels_twice m m' s : set_channels m (set_channels m' s) = set_channels m s.
Proof. reflexivity. Qed.

(** The first loop writes [category_writes] and makes only category calls. *)
Lemma run_sync_categories (chs : list gchannel) (k : prog) (s : state) :
  exists t, Forall category_event t /\
    run s (sync_categories chs k) =
    with_prefix t (run (set_categories (ins_all (category_writes chs) (categories (st_db s))) s) k).
Proof.
  revert s. induction chs as [|ch rest IH]; intros s; simpl.
  - exists []. split; [constructor|]. by rewrite with_prefix_nil, set_categories_same.
  - destruct (is_category ch) eqn:Hc; [|apply IH].
    rewrite run_CategoryGet.
    destruct (categories (st_db s) !! gch_id ch) as [c0|] eqn:Hl.
    + rewrite run_CategoryUpdate. erewrite gm_update_const by eassumption.
      destruct (IH (set_categories (<[gch_id ch := {| cat_name := gch_name ch |}]> (categories (st_db s))) s))
        as [t [Ht ->]].
      exists (EGet TCategory (gch_id ch) :: EUpdate TCategory (gch_id ch) :: t).
      split; [repeat constructor; done|].
      rewrite !with_prefix_app. reflexivity.
    + rewrite run_CategoryCreate_fresh by done.
      destruct (IH (set_categories (<[gch_id ch := {| cat_name := gch_name ch |}]> (categories (st_db s))) s))
        as [t [Ht ->]].
      exists (EGet TCategory (gch_id ch) :: ECreate TCategory (gch_id ch) true :: t).
      split; [repeat constructor; done|].
      rewrite !with_prefix_app. reflexivity.
Qed.

(** The second loop writes [channel_writes] and stops at its exception. *)
Lemma run_sync_chans (cfg : bot_config) (chs : list gchannel) (k : prog) (s : state) :
  exists t, Forall channel_event t /\
    run s (sync_chans cfg chs k) =
    let s' := set_channels (ins_all (channel_writes cfg chs).1 (channels (st_db s))) s in
    match (channel_writes cfg chs).2 with
    | None => with_prefix t (run s' k)
    | Some e => (Raised e, s', t)
    end.
Proof.
  revert s. induction chs as [|ch rest IH]; intros s; simpl.
  - exists []. split; [constructor|]. by rewrite with_prefix_nil, set_channels_same.
  - destruct (in_ignored_category cfg ch); [apply IH|].
    destruct (negb (is_category ch) && negb (is_voice ch)); [|apply IH].
    rewrite run_ChannelGet.
    destruct (channels (st_db s) !! gch_id ch) as [c0|] eqn:Hl;
      destruct (channel_is_staff cfg ch) as [b|] eqn:Hb.
    + rewrite run_ChannelUpdate. erewrite gm_update_const by eassumption.
      destruct (IH (set_channels (<[gch_id ch := channel_row_of ch b]> (channels (st_db s))) s))
        as [t [Ht Hrun]].
      exists (EGet TChannel (gch_id ch) :: EUpdate TChannel (gch_id ch) :: t).
      split; [repeat constructor; done|].
      rewrite Hrun. destruct (channel_writes cfg rest) as [w e]; simpl.
      destruct e; [reflexivity|]. rewrite !with_prefix_app. reflexivity.
    + exists [EGet TChannel (gch_id ch)]. split; [repeat constructor|].
      simpl. by rewrite set_channels_same.
    + rewrite run_ChannelCreate_fresh by done.
      destruct (IH (set_channels (<[gch_id ch := channel_row_of ch b]> (channels (st_db s))) s))
        as [t [Ht Hrun]].
      exists (EGet TChannel (gch_id ch) :: ECreate TChannel (gch_id ch) true :: t).
      split; [repeat constructor; done|].
      rewrite Hrun. destruct (channel_writes cfg rest) as [w e]; simpl.
      destruct e; [reflexivity|]. rewrite !with_prefix_app. reflexivity.
    + exists [EGet TChannel (gch_id ch)]. split; [repeat constructor|].
      simpl. by rewrite set_channels_same.
Qed.

(** ** [gen_chunks] unfolds chunk by chunk *)

Lemma gen_chunks_nil {A} (n : nat) : gen_chunks (@nil A) n = [].
Proof.
  unfold gen_chunks, py_range0. destruct n as [|n]; [reflexivity|].
  change (length (@nil A)) with 0%nat.
  rewrite (Nat.div_small (0 + S n - 1)) by lia. reflexivity.
Qed.

Lemma ceil_div_step (L n : nat) :
  (0 < n)%nat -> (0 < L)%nat ->
  ((L + n - 1) / n = S ((L - n + n - 1) / n))%nat.
Proof.
  intros Hn HL. destruct (Nat.le_gt_cases n L) as [Hle|Hlt].
  - replace (L + n - 1)%nat with (1 * n + (L - n + n - 1))%nat by lia.
    rewrite Nat.div_add_l by lia. lia.
  - replace (L - n)%nat with 0%nat by lia.
    rewrite (Nat.div_small (0 + n - 1)) by lia.
    assert (n <= L + n - 1 < 2 * n)%nat as Hb by lia.
    symmetry. apply Nat.div_unique with (r := (L + n - 1 - n)%nat); lia.
Qed.

Lemma gen_chunks_cons {A} (l : list A) (n : nat) :
  (0 < n)%nat -> l <> [] ->
  gen_chunks l n = firstn n l :: gen_chunks (skipn n l) n.
Proof.
  intros Hn Hl. unfold gen_chunks, py_range0.
  assert (0 < length l)%nat as HL by (destruct l; [congruence|simpl; lia]).
  rewrite length_skipn, ceil_div_step by done.
  rewrite <- cons_seq, <- seq_shift, !map_cons, !map_map.
  f_equal.
  - unfold py_slice. simpl. f_equal. lia.
  - apply map_ext. intros j. unfold py_slice.
    replace (S j * n + n - S j * n)%nat with n by lia.
    replace (j * n + n - j * n)%nat with n by lia.
    rewrite skipn_skipn. f_equal. f_equal. simpl. lia.
Qed.

Lemma gen_chunks_props {A} (n : nat) (l : list A) :
  (0 < n)%nat ->
  concat (gen_chunks l n) = l /\
  Forall (fun c => c <> [] /\ (length c <= n)%nat) (gen_chunks l n) /\
  Forall (fun c => length c = n) (removelast (gen_chunks l n)).
Proof.
  intros Hn. remember (length l) as L eqn:HL. revert l HL.
  induction L as [L IH] using lt_wf_ind. intros l HL.
  destruct l as [|x l'].
  { rewrite gen_chunks_nil. repeat split; constructor. }
  rewrite gen_chunks_cons by (done || congruence).
  destruct (IH (length (skipn n (x :: l')))) with (l := skipn n (x :: l'))
    as (Hc & Hf & Hr); [rewrite length_skipn; simpl in *; lia | reflexivity |].
  split; [|split].
  - simpl. rewrite Hc. apply take_drop.
  - constructor; [|done]. split.
    + destruct n; [lia|]. simpl. congruence.
    + rewrite length_firstn. lia.
  - destruct (gen_chunks (skipn n (x :: l')) n) as [|c cs] eqn:Hg.
    + constructor.
    + assert (skipn n (x :: l') <> []) as Hne.
      { intros Hnil. rewrite Hnil, gen_chunks_nil in Hg. discriminate. }
      change (removelast (firstn n (x :: l') :: c :: cs))
        with (firstn n (x :: l') :: removelast (c :: cs)).
      constructor; [|done].
      rewrite length_firstn.
      assert (n < length (x :: l'))%nat.
      { destruct (Nat.lt_ge_cases n (length (x :: l'))) as [?|Hge]; [done|].
        exfalso. apply Hne. by apply skipn_all2. }
      lia.
Qed.

(** [sync_channels] as a whole: the gate is cleared, both loops write their
    rows, and the gate is set again only when the second loop returns. *)
Lemma run_sync_channels (cfg : bot_config) (g : guild) (s : state) :
  exists t, Forall topology_store_event t /\
    let s1 := set_gate ChannelSyncInProgress false s in
    let s2 := set_categories (ins_all (category_writes (g_channels g)) (categories (st_db s1))) s1 in
    let s3 := set_channels (ins_all (channel_writes cfg (g_channels g)).1 (channels (st_db s2))) s2 in
    run s (sync_channels cfg g) =
    match (channel_writes cfg (g_channels g)).2 with
    | None => (Finished, set_gate ChannelSyncInProgress true s3,
               EClear ChannelSyncInProgress :: t ++ [ESet ChannelSyncInProgress])
    | Some e => (Raised e, s3, EClear ChannelSyncInProgress :: t)
    end.
Proof.
  unfold sync_channels. rewrite run_ClearEv.
  destruct (run_sync_categories (g_channels g)
              (sync_chans cfg (g_channels g) (SetEv ChannelSyncInProgress Ret))
              (set_gate ChannelSyncInProgress false s)) as [t1 [Ht1 ->]].
  match goal with |- context [run ?s2 (sync_chans _ _ _)] =>
    destruct (run_sync_chans cfg (g_channels g) (SetEv ChannelSyncInProgress Ret) s2)
      as [t2 [Ht2 ->]] end.
  exists (t1 ++ t2). split.
  { apply Forall_app. split.
    - eapply Forall_impl; [exact Ht1|]. intros [] H; try destruct t; done.
    - eapply Forall_impl; [exact Ht2|]. intros [] H; try destruct t; done. }
  destruct (channel_writes cfg (g_channels g)) as [w [e|]]; simpl.
  - reflexivity.
  - rewrite app_assoc. reflexivity.
Qed.

(** ** Concrete inputs used by the witnesses and counterexamples *)

Definition ex_cfg : bot_config :=
  {| guild_id := 1; ignore_categories := [50]; staff_categories := [60];
     staff_role_id := 7 |}.

Definition ex_alice : user_row :=
  {| u_name := "alice"; u_avatar_hash := Some "h"; u_joined_at := Some 10;
     u_created_at := 5; u_is_staff := true; u_bot := false; u_opt_out := false |}.

(** After a completed sync: both gates set, one known author (id 9). *)
Definition ex_state : state :=
  {| st_db := {| categories := ∅; channels := ∅; users := {[ 9 := ex_alice ]};
                 messages := ∅ |};
     sync_process_complete := true; channel_sync_in_progress := true |}.

Definition ex_staff_category : gchannel :=
  {| gch_id := 60; gch_name := "staff"; gch_type := CategoryChannel; gch_category := None |}.

Definition ex_text_channel : gchannel :=
  {| gch_id := 100; gch_name := "mods"; gch_type := TextChannel; gch_category := Some 60 |}.

(** A text channel outside any category. *)
Definition ex_uncategorised : gchannel :=
  {| gch_id := 101; gch_name := "welcome"; gch_type := TextChannel; gch_category := None |}.

Definition ex_guild : guild :=
  {| g_id := 1; g_channels := [ex_staff_category; ex_text_channel]; g_members := [] |}.

Definition ex_msg : dmessage :=
  {| msg_id := 500; msg_guild := Some 1; msg_channel_id := 100;
     msg_channel_category := Some 60; msg_author_id := 9; msg_created_at := 20 |}.

(** Alice as a member of the guild, holding the staff role 7. *)
Definition ex_member (roles : list Z) : member :=
  {| m_id := 9; m_name := "alice"; m_avatar := Some "h"; m_joined_at := Some 10;
     m_created_at := 5; m_roles := roles; m_bot := false; m_guild_id := 1 |}.

(** A guild whose only channel is a text channel outside any category. *)
Definition ex_guild_uncategorised : guild :=
  {| g_id := 1; g_channels := [ex_uncategorised]; g_members := [] |}.

(** No rows stored yet, both gates set. *)
Definition ex_state_no_users : state :=
  {| st_db := {| categories := ∅; channels := ∅; users := ∅; messages := ∅ |};
     sync_process_complete := true; channel_sync_in_progress := true |}.

(** [ex_state] where message 500 is already stored. *)
Definition ex_state_msg_stored : state := set_messages {[ 500 := message_row_of ex_msg ]} ex_state.

Definition ex_direct_msg : dmessage :=
  {| msg_id := 501; msg_guild := None; msg_channel_id := 7; msg_channel_category := None;
     msg_author_id := 9; msg_created_at := 21 |}.

(** An update event sent before the member is fully joined. *)
Definition ex_member_not_joined : member :=
  {| m_id := 9; m_name := "alice"; m_avatar := Some "h"; m_joined_at := None;
     m_created_at := 5; m_roles := [7]; m_bot := false; m_guild_id := 1 |}.

(** A roster of 3000 members. *)
Definition ex_roster_guild : guild :=
  {| g_id := 1; g_channels := [ex_staff_category; ex_text_channel];
     g_members := map (fun i => {| m_id := Z.of_nat i; m_name := "user";
                                   m_avatar := None; m_joined_at := Some 1;
                                   m_created_at := 0; m_roles := []; m_bot := false;
                                   m_guild_id := 1 |}) (seq 0 3000) |}.

(** ** The ordering the spec asks of the channel gate, on an interleaving

    [msg_waits_for_sync a m in_flight t]: in the interleaved trace [t], the
    coroutine [m] makes no store call while the synchroniser [a] has cleared
    the gate and not set it again. *)
Fixpoint msg_waits_for_sync (a m : nat) (in_flight : bool) (t : list (nat * event)) : bool :=
  match t with
  | [] => true
  | (i, e) :: t' =>
      if Nat.eqb i a then
        match e with
        | EClear ChannelSyncInProgress => msg_waits_for_sync a m true t'
        | ESet ChannelSyncInProgress => msg_waits_for_sync a m false t'
        | _ => msg_waits_for_sync a m in_flight t'
        end
      else if Nat.eqb i m then
        negb (in_flight && store_event e) && msg_waits_for_sync a m in_flight t'
      else msg_waits_for_sync a m in_flight t'
  end.

(** ** The recording rule of the spec (§3, §4.5), in its own words

    Modelled from the spec's words, to compare with [on_message]: the message
    comes from the target server, its author has a row whose [opt_out] is
    false, and its channel's category is not in the ignore-set. *)
Definition message_recordable (cfg : bot_config) (msg : dmessage) (s : state) : Prop :=
  msg_guild msg = Some (guild_id cfg) /\
  (exists u, users (st_db s) !! msg_author_id msg = Some u /\ u_opt_out u = false) /\
  (forall c, msg_channel_category msg = Some c -> c ∉ ignore_categories cfg).

Definition creates_message (t : list event) : bool :=
  existsb (fun e => match e with ECreate TMessage _ _ => true | _ => false end) t.

(** Every stored user keeps a row, with the same [opt_out]. *)
Definition opt_out_kept (s s' : state) : Prop :=
  forall i r, users (st_db s) !! i = Some r ->
    exists r', users (st_db s') !! i = Some r' /\ u_opt_out r' = u_opt_out r.

(** A guild other than the configured one. *)
Definition ex_other_guild : guild :=
  {| g_id := 2; g_channels := [ex_uncategorised]; g_members := [] |}.

(** A member of that other guild. *)
Definition ex_outsider : member :=
  {| m_id := 30; m_name := "carol"; m_avatar := None; m_joined_at := Some 12;
     m_created_at := 3; m_roles := [7]; m_bot := false; m_guild_id := 2 |}.

(** A bot member of the configured guild, without the staff role. *)
Definition ex_bob : member :=
  {| m_id := 12; m_name := "bob"; m_avatar := None; m_joined_at := Some 11;
     m_created_at := 4; m_roles := [3]; m_bot := true; m_guild_id := 1 |}.

(** The configured guild with its two channels and a roster of two. *)
Definition ex_small_roster : guild :=
  {| g_id := 1; g_channels := [ex_staff_category; ex_text_channel];
     g_members := [ex_member [7]; ex_bob] |}.

(** * Claims *)

(** C8: running [sync_channels] a second time on the same guild topology
    leaves the stored categories and channels exactly as the first run left
    them (rows are keyed by id, so no duplicate rows), and the second run
    ends the same way as the first. *)
Theorem sync_channels_idempotent (cfg : bot_config) (g : guild) (s : state) :
  let '(o1, s1, _) := run s (sync_channels cfg g) in
  let '(o2, s2, _) := run s1 (sync_channels cfg g) in
  o2 = o1 /\
  categories (st_db s2) = categories (st_db s1) /\
  channels (st_db s2) = channels (st_db s1).
Proof.
  destruct (run_sync_channels cfg g s) as [t [_ H1]]. rewrite H1.
  destruct (channel_writes cfg (g_channels g)) as [w e] eqn:Hw. cbn [fst snd].
  destruct e as [e|].
  - match goal with |- context [run ?s1 (sync_channels cfg g)] =>
      destruct (run_sync_channels cfg g s1) as [t' [_ H2]] end.
    rewrite H2, Hw. simpl. rewrite !ins_all_idem. auto.
  - match goal with |- context [run ?s1 (sync_channels cfg g)] =>
      destruct (run_sync_channels cfg g s1) as [t' [_ H2]] end.
    rewrite H2, Hw. simpl. rewrite !ins_all_idem. auto.
Qed.

Lemma py_in_int_list (c : Z) (l : list Z) :
  py_in (PyInt c) (py_int_list l) = true <-> c ∈ l.
Proof.
  induction l as [|x l IH]; simpl.
  - split; [discriminate|]. intros H. by apply not_elem_of_nil in H.
  - rewrite elem_of_cons, orb_true_iff, Z.eqb_eq, <- IH. reflexivity.
Qed.

Lemma py_in_none_int_list (l : list Z) : py_in PyNone (py_int_list l) = false.
Proof. induction l as [|x l IH]; [reflexivity|]. exact IH. Qed.

(** [on_message] on a message that passes the filters: it waits, reads the
    author, and creates the row. *)
Lemma run_on_message_pass (cfg : bot_config) (msg : dmessage) (s : state) :
  channel_sync_in_progress s = true -> message_recordable cfg msg s ->
  run s (on_message cfg msg) =
  with_prefix [EWait ChannelSyncInProgress; EGet TUser (msg_author_id msg)]
    (run s (MessageCreate (msg_id msg) (message_row_of msg)
              (fun ok => if ok then Ret else Raise UniqueViolationError))).
Proof.
  intros Hg (Hguild & (u & Hu & Hopt) & Hcat).
  unfold on_message. rewrite Hguild, Z.eqb_refl. cbn [negb].
  rewrite run_WaitEv_set by done. rewrite run_UserGet, Hu, Hopt.
  rewrite with_prefix_app.
  destruct (msg_channel_category msg) as [c|] eqn:Hc; cbn [py_opt_int].
  - destruct (py_in (PyInt c) (py_int_list (ignore_categories cfg))) eqn:Hin.
    + apply py_in_int_list in Hin. exfalso. by apply (Hcat c).
    + reflexivity.
  - by rewrite py_in_none_int_list.
Qed.

(** [on_message] on a message that fails a filter: it writes nothing and
    leaves the state as it was. *)
Lemma run_on_message_discard (cfg : bot_config) (msg : dmessage) (s : state) :
  channel_sync_in_progress s = true -> ~ message_recordable cfg msg s ->
  exists t, run s (on_message cfg msg) = (Finished, s, t) /\
            forallb (fun e => negb (store_write_event e)) t = true.
Proof.
  intros Hg Hnot. unfold on_message.
  destruct (msg_guild msg) as [gid|] eqn:Hguild; [|by exists []].
  destruct (Z.eqb_spec gid (guild_id cfg)) as [->|Hne]; cbn [negb]; [|by exists []].
  rewrite run_WaitEv_set by done. rewrite run_UserGet.
  destruct (users (st_db s) !! msg_author_id msg) as [u|] eqn:Hu;
    [|by eexists].
  destruct (u_opt_out u) eqn:Hopt; [by eexists|].
  destruct (py_in (py_opt_int (msg_channel_category msg))
                  (py_int_list (ignore_categories cfg))) eqn:Hin; [by eexists|].
  exfalso. apply Hnot. split; [done|]. split; [by exists u|].
  intros c Hc Hc'. rewrite Hc in Hin. cbn [py_opt_int] in Hin.
  apply py_in_int_list in Hc'. congruence.
Qed.

(** C4 (as the code has it): [sync_channels] clears the channel gate as its
    first action and sets it only as its last one, after both loops (a run
    that raises never sets it); [on_message] checks the guild, then waits on
    the gate before any store call: while the gate is clear it blocks without
    touching the store. *)
Theorem channel_gate_order (cfg : bot_config) :
  (forall (g : guild) (s : state), exists t, Forall topology_store_event t /\
     let '(o, _, tr) := run s (sync_channels cfg g) in
     tr = EClear ChannelSyncInProgress :: t ++
            (if is_finished o then [ESet ChannelSyncInProgress] else [])) /\
  (forall (msg : dmessage) (s : state),
     let r := run s (on_message cfg msg) in
     match msg_guild msg with
     | Some gid =>
         if Z.eqb gid (guild_id cfg) then
           if channel_sync_in_progress s
           then exists t, r.2 = EWait ChannelSyncInProgress :: t
           else r = (Blocked ChannelSyncInProgress, s, [])
         else r = (Finished, s, [])
     | None => r = (Finished, s, [])
     end).
Proof.
  split.
  - intros g s. destruct (run_sync_channels cfg g s) as [t [Ht ->]].
    exists t. split; [done|].
    destruct ((channel_writes cfg (g_channels g)).2); simpl; [by rewrite app_nil_r|done].
  - intros msg s. cbv zeta. unfold on_message.
    destruct (msg_guild msg) as [gid|]; [|reflexivity].
    destruct (Z.eqb gid (guild_id cfg)); cbn [negb]; [|reflexivity].
    destruct (channel_sync_in_progress s) eqn:Hg.
    + rewrite run_WaitEv_set by done.
      destruct (run s _) as [[o s'] t]. by exists t.
    + by rewrite run_WaitEv_unset.
Qed.

(** C4 (as stated): two overlapping runs of [sync_channels] (two channel
    events) and one message.  Run 0 clears the gate and is suspended in its
    first [Category.get]; run 1 then completes and sets the gate; the message
    passes the gate, reads its author and is recorded while run 0 is still in
    flight. *)
Definition ex_race_schedule : list nat := [0; 1; 1; 1; 1; 1; 1; 2; 2; 2]%nat.

Lemma message_filtered_during_sync :
  ~ (forall (cfg : bot_config) (g : guild) (msg : dmessage) (ts : list prog)
        (s0 : state) (a m : nat) (sch : list nat) t c,
        a <> m ->
        ts !! a = Some (sync_channels cfg g) ->
        ts !! m = Some (on_message cfg msg) ->
        sched sch (s0, ts) = Some (t, c) ->
        msg_waits_for_sync a m false t = true).
Proof.
  intros H.
  set (ts := [sync_channels ex_cfg ex_guild; sync_channels ex_cfg ex_guild;
              on_message ex_cfg ex_msg]).
  destruct (sched ex_race_schedule (ex_state, ts)) as [[t c]|] eqn:E;
    [|vm_compute in E; discriminate].
  pose proof (H ex_cfg ex_guild ex_msg ts ex_state 0%nat 2%nat ex_race_schedule t c
                ltac:(lia) eq_refl eq_refl E) as Hw.
  vm_compute in E. injection E as Et _. subst t.
  vm_compute in Hw. discriminate.
Qed.

Lemma run_upsert_chunks (cs : list (list bulk_user)) (k : prog) (s : state) :
  exists s', run s (upsert_chunks cs k) =
             with_prefix (map (fun c => EBulkUpsert (length c)) cs) (run s' k).
Proof.
  revert s. induction cs as [|c cs IH]; intros s; cbn [upsert_chunks map].
  - exists s. by rewrite with_prefix_nil.
  - rewrite run_UserBulkUpsert.
    destruct (IH (set_users (bulk_upsert c (users (st_db s))) s)) as [s' ->].
    exists s'. by rewrite with_prefix_app.
Qed.

Lemma topology_events_not_membership (t : list event) :
  Forall topology_store_event t -> List.filter membership_event t = [].
Proof.
  induction 1 as [|e t He _ IH]; [reflexivity|].
  simpl. rewrite IH.
  destruct e as [g|g|g|tb i|tb i b|tb i|n]; try destruct g; try destruct tb;
    simpl in *; first [done | tauto | (intros Hx; exact Hx)].
Qed.

Lemma chunk_lengths_3000 {A} (l : list A) :
  length l = 3000%nat -> map length (gen_chunks l 2500) = [2500%nat; 500%nat].
Proof.
  intros Hl.
  rewrite gen_chunks_cons by (lia || (intros ->; discriminate)).
  rewrite (gen_chunks_cons (skipn 2500 l)).
  2: lia.
  2: { intros Hn. apply (f_equal length) in Hn. rewrite length_skipn in Hn. simpl in Hn. lia. }
  assert (skipn 2500 (skipn 2500 l) = []) as ->.
  { apply length_zero_iff_nil. rewrite !length_skipn. lia. }
  rewrite gen_chunks_nil. simpl.
  rewrite !length_firstn, length_skipn, Hl. reflexivity.
Qed.

(** C5: [gen_chunks _ 2500] cuts any list into chunks whose concatenation
    is the list, each non-empty and of at most 2500 items, all but the last
    of exactly 2500; and on the configured guild with 3000 members,
    [on_guild_available] makes exactly two bulk upserts, of 2500 and 500
    rows, and sets the membership gate after both.  (The upserts follow the
    channel sync; when that sync raises, the handler stops before them and
    the gate is not set.) *)
Theorem bulk_bootstrap_chunks :
  (forall (A : Type) (l : list A),
     concat (gen_chunks l 2500) = l /\
     Forall (fun c => c <> [] /\ (length c <= 2500)%nat) (gen_chunks l 2500) /\
     Forall (fun c => length c = 2500%nat) (removelast (gen_chunks l 2500))) /\
  (forall (cfg : bot_config) (g : guild) (s : state),
     g_id g = guild_id cfg -> length (g_members g) = 3000%nat ->
     let '(o_sync, _, _) := run s (sync_channels cfg g) in
     let '(o, _, t) := run s (on_guild_available cfg g) in
     List.filter membership_event t =
       if is_finished o_sync
       then [EBulkUpsert 2500; EBulkUpsert 500; ESet SyncProcessComplete]
       else []).
Proof.
  split.
  - intros A l. apply gen_chunks_props. lia.
  - intros cfg g s Hg Hlen.
    unfold on_guild_available. rewrite Hg, Z.eqb_refl. cbn [negb].
    rewrite run_seq.
    destruct (run_sync_channels cfg g s) as [t [Ht ->]].
    destruct ((channel_writes cfg (g_channels g)).2) as [e|]; cbn [is_finished].
    + simpl. by apply topology_events_not_membership.
    + match goal with |- context [run ?s3 (upsert_chunks ?cs ?k)] =>
        destruct (run_upsert_chunks cs k s3) as [s' ->] end.
      simpl. rewrite !List.filter_app, topology_events_not_membership by done.
      simpl.
      rewrite <- (map_map length EBulkUpsert).
      rewrite chunk_lengths_3000 by (rewrite length_map; done).
      reflexivity.
Qed.

Lemma message_recordable_dec (cfg : bot_config) (msg : dmessage) (s : state) :
  {message_recordable cfg msg s} + {~ message_recordable cfg msg s}.
Proof.
  unfold message_recordable.
  destruct (decide (msg_guild msg = Some (guild_id cfg))) as [Hg|Hg];
    [|right; tauto].
  destruct (users (st_db s) !! msg_author_id msg) as [u|] eqn:Hu;
    [|right; intros (_ & (u & Hu' & _) & _); congruence].
  destruct (u_opt_out u) eqn:Ho;
    [right; intros (_ & (u' & Hu' & Ho') & _); congruence|].
  destruct (msg_channel_category msg) as [c|] eqn:Hc.
  - destruct (decide (c ∈ ignore_categories cfg)) as [Hin|Hin].
    + right. intros (_ & _ & Hcat). by apply (Hcat c).
    + left. split; [done|]. split; [by exists u|]. intros c' [= <-]. done.
  - left. split; [done|]. split; [by exists u|]. discriminate.
Qed.

(** C3: once the handler is past the channel gate, [on_message] creates a
    [Message] row exactly when the message comes from the target server,
    its author already has a [User] row with [opt_out] false, and its
    channel's category is not ignored; otherwise it writes nothing and the
    state is unchanged.  When it creates the row and the id is new, the row
    is stored. *)
Theorem on_message_records_iff (cfg : bot_config) (msg : dmessage) (s : state)
    (Hgate : channel_sync_in_progress s = true) :
  let '(_, s', t) := run s (on_message cfg msg) in
  (creates_message t = true <-> message_recordable cfg msg s) /\
  (~ message_recordable cfg msg s ->
     s' = s /\ forallb (fun e => negb (store_write_event e)) t = true) /\
  (message_recordable cfg msg s -> messages (st_db s) !! msg_id msg = None ->
     messages (st_db s') = <[msg_id msg := message_row_of msg]> (messages (st_db s))).
Proof.
  destruct (message_recordable_dec cfg msg s) as [Hr|Hr].
  - rewrite run_on_message_pass by done. simpl.
    destruct (messages (st_db s) !! msg_id msg) as [m0|] eqn:Hm.
    + unfold gm_create. rewrite Hm. simpl.
      split; [tauto|]. split; [tauto|]. discriminate.
    + rewrite gm_create_fresh by done. simpl.
      split; [tauto|]. split; [tauto|]. reflexivity.
  - destruct (run_on_message_discard cfg msg s Hgate Hr) as [t [-> Ht]].
    split; [|split; [tauto|tauto]].
    split; [|tauto]. intros Hc. exfalso.
    induction t as [|e t IH]; [discriminate|].
    simpl in Hc, Ht. apply andb_true_iff in Ht as [He Ht].
    apply orb_true_iff in Hc as [Hc|Hc]; [|by apply IH].
    destruct e as [| | | |[] ? ?| |]; simpl in *; discriminate.
Qed.

(** C7: a message that passes every filter but whose id is already stored
    makes [Message.create] raise [UniqueViolationError], and [on_message]
    raises it to its caller. *)
Theorem on_message_duplicate_raises (cfg : bot_config) (msg : dmessage) (s : state)
    (Hgate : channel_sync_in_progress s = true)
    (Hrec : message_recordable cfg msg s)
    (Hdup : is_Some (messages (st_db s) !! msg_id msg)) :
  (run s (on_message cfg msg)).1.1 = Raised UniqueViolationError.
Proof.
  rewrite run_on_message_pass by done.
  destruct Hdup as [m0 Hm]. simpl. unfold gm_create. rewrite Hm. reflexivity.
Qed.

(** C10: a direct message (no guild) makes [on_message] return at once: no
    wait on the gate, no store call, the state unchanged. *)
Theorem on_message_direct_message (cfg : bot_config) (msg : dmessage) (s : state)
    (Hdm : msg_guild msg = None) :
  run s (on_message cfg msg) = (Finished, s, []).
Proof. unfold on_message. by rewrite Hdm. Qed.

(** C9: a member update from the target server without a join timestamp
    makes [on_member_update] return after the membership gate: no store call,
    no exception, the state unchanged. *)
Theorem on_member_update_not_joined (cfg : bot_config) (before m : member) (s : state)
    (Hguild : m_guild_id m = guild_id cfg) (Hjoined : m_joined_at m = None) :
  run s (on_member_update cfg before m) =
  if sync_process_complete s
  then (Finished, s, [EWait SyncProcessComplete])
  else (Blocked SyncProcessComplete, s, []).
Proof.
  unfold on_member_update. simpl.
  destruct (sync_process_complete s); [|reflexivity].
  rewrite Hguild, Z.eqb_refl, Hjoined. reflexivity.
Qed.

(** C6: a join event, or an update event with a join timestamp, for a member
    of the target server with no stored row, makes the handler read the row
    and then attempt [User.create].  Whatever other handlers have written
    meanwhile (any state [s']), that create ends the handler without an
    exception and with exactly one row for the id; when another writer
    created it first, the [UniqueViolationError] is swallowed and the state
    is left as it is. *)
Theorem member_create_tolerates_duplicate (cfg : bot_config) (m : member) (s : state)
    (Hguild : m_guild_id m = guild_id cfg)
    (Hready : sync_process_complete s = true)
    (Habsent : users (st_db s) !! m_id m = None) :
  forall p : prog,
    p = on_member_join cfg m \/
    (exists before, p = on_member_update cfg before m /\ is_Some (m_joined_at m)) ->
    exists p1 k,
      step1 s p = Some (EWait SyncProcessComplete, s, p1) /\
      step1 s p1 = Some (EGet TUser (m_id m), s,
                         UserCreate (m_id m) (member_create_row cfg m) k) /\
      forall s' : state,
        let '(o, s'', _) := run s' (UserCreate (m_id m) (member_create_row cfg m) k) in
        o = Finished /\ is_Some (users (st_db s'') !! m_id m) /\
        (is_Some (users (st_db s') !! m_id m) -> s'' = s').
Proof.
  assert (forall s', let '(o, s'', _) :=
            run s' (UserCreate (m_id m) (member_create_row cfg m)
                      (fun ok => if ok then Ret else Ret)) in
          o = Finished /\ is_Some (users (st_db s'') !! m_id m) /\
          (is_Some (users (st_db s') !! m_id m) -> s'' = s')) as Hcreate.
  { intros s'. simpl. unfold gm_create.
    destruct (users (st_db s') !! m_id m) as [u|] eqn:Hu; simpl.
    - rewrite Hu. split; [done|]. split; [by eexists|done].
    - rewrite lookup_insert_eq. split; [done|]. split; [by eexists|].
      intros [? Hx]. congruence. }
  intros p [-> | (before & -> & [j Hj])].
  - eexists _, _. split; [simpl; rewrite Hready; reflexivity|].
    split; [|exact Hcreate].
    simpl. rewrite Hguild, Z.eqb_refl. simpl. rewrite Habsent. reflexivity.
  - eexists _, _. split; [simpl; rewrite Hready; reflexivity|].
    split; [|exact Hcreate].
    simpl. rewrite Hguild, Z.eqb_refl, Hj. simpl. rewrite Habsent. reflexivity.
Qed.

(** C1 (code as written): Python reads the staff test of lines 198-199 as a
    chained comparison, [(staff_role_id in roles) and (roles != is_staff)];
    a list never equals a bool, so the test is just "the member holds the
    staff role", whatever is stored.  On Alice (stored as staff, same name
    and avatar): while she holds the staff role every update event
    rewrites her row, and once the role is removed no write is made and the
    stored staff flag stays true. *)
Theorem on_member_update_staff_test :
  (forall (cfg : bot_config) (db_user : user_row) (m : member),
     update_needed cfg db_user m =
       py_ne (PyStr (u_name db_user)) (PyStr (m_name m))
       || py_ne (py_opt_str (u_avatar_hash db_user)) (py_opt_str (m_avatar m))
       || member_is_staff cfg m) /\
  (run ex_state (on_member_update ex_cfg (ex_member [7]) (ex_member [7]))).2 =
    [EWait SyncProcessComplete; EGet TUser 9; EUpdate TUser 9] /\
  (run ex_state (on_member_update ex_cfg (ex_member [7]) (ex_member []))).2 =
    [EWait SyncProcessComplete; EGet TUser 9] /\
  users (st_db (run ex_state (on_member_update ex_cfg (ex_member [7]) (ex_member []))).1.2)
    !! 9 = Some ex_alice.
Proof.
  split; [|vm_compute; repeat split].
  intros cfg db_user m. unfold update_needed, py_chain_in_ne, member_is_staff.
  unfold py_ne at 3. unfold py_int_list at 2. simpl. by rewrite andb_true_r.
Qed.

(** C2 (code as written): [sync_channels] on a guild with a text channel
    outside any category raises [AttributeError] ([None.id], line 60, while
    line 57 just above guards the same access), stores no [Channel] row for
    it, and leaves the channel gate cleared. *)
Theorem sync_channels_uncategorised_raises :
  let '(o, s', _) := run ex_state (sync_channels ex_cfg ex_guild_uncategorised) in
  o = Raised AttributeError /\ channels (st_db s') !! 101 = None /\
  channel_sync_in_progress s' = false.
Proof. vm_compute. repeat split. Qed.

(** ** Witnesses: the theorems above applied to concrete inputs *)

Lemma bulk_bootstrap_chunks_witness :
  g_id ex_roster_guild = guild_id ex_cfg /\
  length (g_members ex_roster_guild) = 3000%nat /\
  (let '(o_sync, _, _) := run ex_state (sync_channels ex_cfg ex_roster_guild) in
   let '(o, _, t) := run ex_state (on_guild_available ex_cfg ex_roster_guild) in
   List.filter membership_event t =
     if is_finished o_sync
     then [EBulkUpsert 2500; EBulkUpsert 500; ESet SyncProcessComplete]
     else []).
Proof.
  split; [reflexivity|]. split; [reflexivity|].
  apply (proj2 bulk_bootstrap_chunks); reflexivity.
Defined.

Lemma on_message_records_iff_witness :
  channel_sync_in_progress ex_state = true /\
  (let '(_, s', t) := run ex_state (on_message ex_cfg ex_msg) in
   (creates_message t = true <-> message_recordable ex_cfg ex_msg ex_state) /\
   (~ message_recordable ex_cfg ex_msg ex_state ->
      s' = ex_state /\ forallb (fun e => negb (store_write_event e)) t = true) /\
   (message_recordable ex_cfg ex_msg ex_state ->
      messages (st_db ex_state) !! msg_id ex_msg = None ->
      messages (st_db s') =
        <[msg_id ex_msg := message_row_of ex_msg]> (messages (st_db ex_state)))).
Proof.
  split; [reflexivity|]. apply on_message_records_iff. reflexivity.
Defined.

Lemma on_message_duplicate_raises_witness :
  channel_sync_in_progress ex_state_msg_stored = true /\
  message_recordable ex_cfg ex_msg ex_state_msg_stored /\
  is_Some (messages (st_db ex_state_msg_stored) !! msg_id ex_msg) /\
  (run ex_state_msg_stored (on_message ex_cfg ex_msg)).1.1 = Raised UniqueViolationError.
Proof.
  assert (message_recordable ex_cfg ex_msg ex_state_msg_stored) as Hrec.
  { split; [reflexivity|]. split; [exists ex_alice; split; reflexivity|].
    intros c [= <-]. unfold ex_cfg; simpl. rewrite list_elem_of_singleton. lia. }
  assert (is_Some (messages (st_db ex_state_msg_stored) !! msg_id ex_msg)) as Hdup.
  { eexists. reflexivity. }
  split; [reflexivity|]. split; [exact Hrec|]. split; [exact Hdup|].
  apply on_message_duplicate_raises; [reflexivity | exact Hrec | exact Hdup].
Defined.

Lemma on_message_direct_message_witness :
  msg_guild ex_direct_msg = None /\
  run ex_state (on_message ex_cfg ex_direct_msg) = (Finished, ex_state, []).
Proof.
  split; [reflexivity|]. apply on_message_direct_message. reflexivity.
Defined.

Lemma on_member_update_not_joined_witness :
  m_guild_id ex_member_not_joined = guild_id ex_cfg /\
  m_joined_at ex_member_not_joined = None /\
  run ex_state (on_member_update ex_cfg ex_member_not_joined ex_member_not_joined) =
  (if sync_process_complete ex_state
   then (Finished, ex_state, [EWait SyncProcessComplete])
   else (Blocked SyncProcessComplete, ex_state, [])).
Proof.
  split; [reflexivity|]. split; [reflexivity|].
  apply on_member_update_not_joined; reflexivity.
Defined.

Lemma member_create_tolerates_duplicate_witness :
  m_guild_id (ex_member [7]) = guild_id ex_cfg /\
  sync_process_complete ex_state_no_users = true /\
  users (st_db ex_state_no_users) !! m_id (ex_member [7]) = None /\
  exists p1 k,
    step1 ex_state_no_users (on_member_join ex_cfg (ex_member [7])) =
      Some (EWait SyncProcessComplete, ex_state_no_users, p1) /\
    step1 ex_state_no_users p1 =
      Some (EGet TUser 9, ex_state_no_users,
            UserCreate 9 (member_create_row ex_cfg (ex_member [7])) k) /\
    forall s' : state,
      let '(o, s'', _) := run s' (UserCreate 9 (member_create_row ex_cfg (ex_member [7])) k) in
      o = Finished /\ is_Some (users (st_db s'') !! 9) /\
      (is_Some (users (st_db s') !! 9) -> s'' = s').
Proof.
  split; [reflexivity|]. split; [reflexivity|]. split; [reflexivity|].
  apply (member_create_tolerates_duplicate ex_cfg (ex_member [7]) ex_state_no_users
           eq_refl eq_refl eq_refl).
  left. reflexivity.
Defined.

(** * Further properties of the handlers *)

Lemma channel_writes_error (cfg : bot_config) (chs : list gchannel) :
  (channel_writes cfg chs).2 =
  if existsb uncategorised_text chs then Some AttributeError else None.
Proof.
  induction chs as [|ch rest IH]; [reflexivity|]. cbn [channel_writes existsb].
  destruct (in_ignored_category cfg ch) eqn:Hi.
  - assert (uncategorised_text ch = false) as ->; [|exact IH].
    unfold in_ignored_category in Hi. unfold uncategorised_text.
    destruct (gch_category ch); [destruct (gch_type ch); reflexivity|discriminate].
  - unfold channel_is_staff, uncategorised_text, is_category, is_voice.
    destruct (gch_type ch); cbn [negb andb orb]; try exact IH.
    destruct (gch_category ch); [|reflexivity].
    destruct (channel_writes cfg rest) as [w e]. exact IH.
Qed.

(** [sync_channels] raises [AttributeError] exactly when the guild has a
    text channel outside any category; otherwise it returns and leaves the
    channel gate set.  When it raises, the gate stays cleared. *)
Theorem sync_channels_outcome (cfg : bot_config) (g : guild) (s : state) :
  let '(o, s', _) := run s (sync_channels cfg g) in
  o = (if existsb uncategorised_text (g_channels g) then Raised AttributeError else Finished) /\
  channel_sync_in_progress s' = negb (existsb uncategorised_text (g_channels g)).
Proof.
  destruct (run_sync_channels cfg g s) as [t [_ ->]].
  rewrite channel_writes_error.
  destruct (existsb uncategorised_text (g_channels g)); split; reflexivity.
Qed.

(** [sync_channels] touches neither the [User] and [Message] tables nor the
    membership gate. *)
Theorem sync_channels_frame (cfg : bot_config) (g : guild) (s : state) :
  let '(_, s', _) := run s (sync_channels cfg g) in
  users (st_db s') = users (st_db s) /\ messages (st_db s') = messages (st_db s) /\
  sync_process_complete s' = sync_process_complete s.
Proof.
  destruct (run_sync_channels cfg g s) as [t [_ ->]].
  destruct ((channel_writes cfg (g_channels g)).2); repeat split.
Qed.

Lemma lookup_ins_all_is_Some {V} (w : list (Z * V)) (m : gmap Z V) (i : Z) :
  is_Some (m !! i) -> is_Some (ins_all w m !! i).
Proof.
  intros [v Hv]. rewrite lookup_ins_all.
  destruct (last_write i w); [by eexists|]. by rewrite Hv.
Qed.

(** [sync_channels] never deletes: every [Category] and [Channel] row present
    before a run is present after it, also when the run raises (rows of
    channels gone from the guild are left in place). *)
Theorem sync_channels_keeps_rows (cfg : bot_config) (g : guild) (s : state) (i : Z) :
  let '(_, s', _) := run s (sync_channels cfg g) in
  (is_Some (categories (st_db s) !! i) -> is_Some (categories (st_db s') !! i)) /\
  (is_Some (channels (st_db s) !! i) -> is_Some (channels (st_db s') !! i)).
Proof.
  destruct (run_sync_channels cfg g s) as [t [_ ->]].
  destruct ((channel_writes cfg (g_channels g)).2); simpl;
    split; apply lookup_ins_all_is_Some.
Qed.

(** The two loops of [sync_channels] run one after the other: the gate is
    cleared, then come all the category calls, then all the channel calls,
    then (when the run returns) the gate is set. *)
Theorem sync_channels_categories_first (cfg : bot_config) (g : guild) (s : state) :
  exists t1 t2, Forall category_event t1 /\ Forall channel_event t2 /\
    let '(o, _, t) := run s (sync_channels cfg g) in
    t = EClear ChannelSyncInProgress :: t1 ++ t2 ++
          (if is_finished o then [ESet ChannelSyncInProgress] else []).
Proof.
  unfold sync_channels. rewrite run_ClearEv.
  destruct (run_sync_categories (g_channels g)
              (sync_chans cfg (g_channels g) (SetEv ChannelSyncInProgress Ret))
              (set_gate ChannelSyncInProgress false s)) as [t1 [Ht1 ->]].
  match goal with |- context [run ?s2 (sync_chans _ _ _)] =>
    destruct (run_sync_chans cfg (g_channels g) (SetEv ChannelSyncInProgress Ret) s2)
      as [t2 [Ht2 ->]] end.
  exists t1, t2. split; [done|]. split; [done|].
  destruct ((channel_writes cfg (g_channels g)).2); simpl.
  - by rewrite app_nil_r.
  - reflexivity.
Qed.

Lemma category_writes_notin (i : Z) (chs : list gchannel) :
  ~ In i (map gch_id chs) -> last_write i (category_writes chs) = None.
Proof.
  induction chs as [|ch rest IH]; intros Hn; [reflexivity|]. simpl in Hn.
  simpl. destruct (is_category ch); [|apply IH; tauto].
  simpl. rewrite IH by tauto. destruct (Z.eqb_spec i (gch_id ch)); [|done].
  exfalso. apply Hn. by left.
Qed.

Lemma category_writes_last (chs : list gchannel) (ch : gchannel) :
  NoDup (map gch_id chs) -> In ch chs ->
  last_write (gch_id ch) (category_writes chs) =
  if is_category ch then Some {| cat_name := gch_name ch |} else None.
Proof.
  induction chs as [|x rest IH]; intros Hnd Hin; [destruct Hin|].
  simpl in Hnd. apply NoDup_cons in Hnd as [Hx Hnd]. rewrite list_elem_of_In in Hx.
  destruct Hin as [->|Hin].
  - simpl. destruct (is_category ch); simpl.
    + rewrite category_writes_notin by done. by rewrite Z.eqb_refl.
    + by rewrite category_writes_notin.
  - assert (gch_id ch <> gch_id x) as Hne.
    { intros Heq. apply Hx. rewrite <- Heq. by apply in_map. }
    simpl. destruct (is_category x); [|by apply IH].
    simpl. rewrite IH by done.
    destruct (is_category ch); [reflexivity|].
    by apply Z.eqb_neq in Hne as ->.
Qed.

Lemma channel_writes_notin (cfg : bot_config) (i : Z) (chs : list gchannel) :
  ~ In i (map gch_id chs) -> last_write i (channel_writes cfg chs).1 = None.
Proof.
  induction chs as [|ch rest IH]; intros Hn; [reflexivity|]. simpl in Hn.
  simpl. destruct (in_ignored_category cfg ch); [apply IH; tauto|].
  destruct (negb (is_category ch) && negb (is_voice ch)); [|apply IH; tauto].
  destruct (channel_is_staff cfg ch); [|reflexivity].
  pose proof (IH ltac:(tauto)) as IH'.
  destruct (channel_writes cfg rest) as [w e]. simpl in *. rewrite IH'.
  destruct (Z.eqb_spec i (gch_id ch)); [|done]. exfalso. apply Hn. by left.
Qed.

Lemma channel_writes_last (cfg : bot_config) (chs : list gchannel) (ch : gchannel) :
  NoDup (map gch_id chs) -> In ch chs ->
  (channel_writes cfg chs).2 = None ->
  last_write (gch_id ch) (channel_writes cfg chs).1 =
  if in_ignored_category cfg ch || is_category ch || is_voice ch then None
  else option_map (channel_row_of ch) (channel_is_staff cfg ch).
Proof.
  induction chs as [|x rest IH]; intros Hnd Hin Herr; [destruct Hin|].
  simpl in Hnd. apply NoDup_cons in Hnd as [Hx Hnd]. rewrite list_elem_of_In in Hx.
  destruct Hin as [->|Hin].
  - simpl in *. destruct (in_ignored_category cfg ch); simpl;
      [by apply channel_writes_notin|].
    destruct (is_category ch), (is_voice ch); simpl in *;
      try (by apply channel_writes_notin).
    destruct (channel_is_staff cfg ch) as [b|]; [|discriminate].
    pose proof (channel_writes_notin cfg (gch_id ch) rest Hx) as Hn.
    destruct (channel_writes cfg rest) as [w e]. simpl in *.
    rewrite Hn, Z.eqb_refl. reflexivity.
  - assert (gch_id ch <> gch_id x) as Hne.
    { intros Heq. apply Hx. rewrite <- Heq. by apply in_map. }
    simpl in *. destruct (in_ignored_category cfg x); [by apply IH|].
    destruct (negb (is_category x) && negb (is_voice x)); [|by apply IH].
    destruct (channel_is_staff cfg x) as [b|]; [|discriminate].
    pose proof (IH Hnd Hin) as IH'.
    destruct (channel_writes cfg rest) as [w e]. simpl in *.
    rewrite IH' by done.
    destruct (in_ignored_category cfg ch || is_category ch || is_voice ch);
      [by apply Z.eqb_neq in Hne as ->|].
    destruct (channel_is_staff cfg ch); [reflexivity|].
    by apply Z.eqb_neq in Hne as ->.
Qed.

(** After a run of [sync_channels] that returns, on a guild whose channel
    ids are distinct: every category is stored under its id with its name;
    every text channel outside the ignored categories is stored with its
    name, its category id and a staff flag that is true iff that category is
    a staff category; the row of any other channel (voice, or in an ignored
    category) is as it was before the run. *)
Theorem sync_channels_stored_rows (cfg : bot_config) (g : guild) (s : state)
    (Hids : NoDup (map gch_id (g_channels g))) :
  let '(o, s', _) := run s (sync_channels cfg g) in
  o = Finished ->
  forall ch, In ch (g_channels g) ->
    (gch_type ch = CategoryChannel ->
       categories (st_db s') !! gch_id ch = Some {| cat_name := gch_name ch |}) /\
    (gch_type ch = TextChannel -> in_ignored_category cfg ch = false ->
       exists c, gch_category ch = Some c /\
         channels (st_db s') !! gch_id ch =
           Some {| chan_name := gch_name ch; chan_category_id := Some c;
                   chan_is_staff := bool_decide (c ∈ staff_categories cfg) |}) /\
    (gch_type ch = VoiceChannel \/ in_ignored_category cfg ch = true ->
       channels (st_db s') !! gch_id ch = channels (st_db s) !! gch_id ch).
Proof.
  destruct (run_sync_channels cfg g s) as [t [_ ->]].
  destruct ((channel_writes cfg (g_channels g)).2) as [e|] eqn:Herr;
    [discriminate|]. intros _ ch Hin. simpl.
  rewrite !lookup_ins_all.
  rewrite category_writes_last by done.
  rewrite channel_writes_last by done.
  pose proof (channel_writes_error cfg (g_channels g)) as Hx. rewrite Herr in Hx.
  destruct (existsb uncategorised_text (g_channels g)) eqn:Hex; [discriminate|].
  assert (uncategorised_text ch = false) as Hu.
  { destruct (uncategorised_text ch) eqn:Hu; [|done].
    rewrite <- Hex. symmetry. apply existsb_exists. by exists ch. }
  unfold is_category, is_voice. split; [|split].
  - intros ->. reflexivity.
  - intros Ht Hi. rewrite Ht, Hi. simpl.
    unfold uncategorised_text in Hu. rewrite Ht in Hu.
    unfold channel_is_staff. destruct (gch_category ch) as [c|] eqn:Hc; [|discriminate].
    exists c. split; [done|]. cbn [option_map]. unfold channel_row_of, category_id_of.
    rewrite Hc.
    assert (py_in (PyInt c) (py_int_list (staff_categories cfg)) =
            bool_decide (c ∈ staff_categories cfg)) as ->; [|reflexivity].
    destruct (py_in (PyInt c) (py_int_list (staff_categories cfg))) eqn:E; symmetry.
    + apply bool_decide_eq_true_2. by apply py_in_int_list.
    + apply bool_decide_eq_false_2. intros H. apply py_in_int_list in H. congruence.
  - intros [Hv|Hi]; [rewrite Hv|rewrite Hi]; simpl.
    + by rewrite orb_true_r.
    + reflexivity.
Qed.

(** The three topology handlers discard events of another guild before any
    store call or gate operation. *)
Theorem topology_handlers_other_guild (cfg : bot_config) (before : gchannel)
    (g : guild) (s : state) (Hother : g_id g <> guild_id cfg) :
  run s (on_guild_channel_create cfg g) = (Finished, s, []) /\
  run s (on_guild_channel_update cfg before g) = (Finished, s, []) /\
  run s (on_guild_available cfg g) = (Finished, s, []).
Proof.
  apply Z.eqb_neq in Hother.
  unfold on_guild_channel_create, on_guild_channel_update, on_guild_available.
  rewrite Hother. repeat split.
Qed.

(** While the membership gate is clear, [on_member_join] and
    [on_member_update] block before any store call, for members of any guild
    (the gate is awaited before the guild is checked). *)
Theorem member_handlers_wait_for_roster (cfg : bot_config) (before m : member) (s : state)
    (Hgate : sync_process_complete s = false) :
  run s (on_member_join cfg m) = (Blocked SyncProcessComplete, s, []) /\
  run s (on_member_update cfg before m) = (Blocked SyncProcessComplete, s, []).
Proof. split; apply run_WaitEv_unset; exact Hgate. Qed.

(** Once the membership gate is set, a join or update event of another guild
    is dropped after the wait, with no store call. *)
Theorem member_handlers_other_guild (cfg : bot_config) (before m : member) (s : state)
    (Hgate : sync_process_complete s = true) (Hother : m_guild_id m <> guild_id cfg) :
  run s (on_member_join cfg m) = (Finished, s, [EWait SyncProcessComplete]) /\
  run s (on_member_update cfg before m) = (Finished, s, [EWait SyncProcessComplete]).
Proof.
  apply Z.eqb_neq in Hother. unfold on_member_join, on_member_update.
  split; rewrite run_WaitEv_set by exact Hgate; rewrite Hother; reflexivity.
Qed.

(** [on_message] only ever adds a [Message] row: categories, channels, users
    and both gates are unchanged, and the [Message] table is either unchanged
    or gains the row of this message under a previously free id. *)
Theorem on_message_frame (cfg : bot_config) (msg : dmessage) (s : state) :
  let '(_, s', _) := run s (on_message cfg msg) in
  categories (st_db s') = categories (st_db s) /\
  channels (st_db s') = channels (st_db s) /\
  users (st_db s') = users (st_db s) /\
  sync_process_complete s' = sync_process_complete s /\
  channel_sync_in_progress s' = channel_sync_in_progress s /\
  (messages (st_db s') = messages (st_db s) \/
   (messages (st_db s) !! msg_id msg = None /\
    messages (st_db s') = <[msg_id msg := message_row_of msg]> (messages (st_db s)))).
Proof.
  unfold on_message.
  destruct (msg_guild msg) as [gid|]; [|simpl; tauto].
  destruct (Z.eqb gid (guild_id cfg)); cbn [negb]; [|simpl; tauto].
  destruct (channel_sync_in_progress s) eqn:Hg;
    [|rewrite run_WaitEv_unset by done; tauto].
  rewrite run_WaitEv_set by done. rewrite run_UserGet.
  destruct (users (st_db s) !! msg_author_id msg) as [u|]; [|simpl; tauto].
  destruct (u_opt_out u); [simpl; tauto|].
  destruct (py_in _ _); [simpl; tauto|].
  simpl. unfold gm_create.
  destruct (messages (st_db s) !! msg_id msg) eqn:Hm; simpl; [tauto|].
  repeat split; [done..|]. right. done.
Qed.

Lemma gm_update_insert {V} (i : Z) (f : V -> V) (m : gmap Z V) (r : V) :
  m !! i = Some r -> gm_update i f m = <[i := f r]> m.
Proof.
  intros Hr. unfold gm_update. apply map_eq. intros j.
  destruct (decide (i = j)) as [<-|Hne].
  - by rewrite lookup_alter_eq, lookup_insert_eq, Hr.
  - by rewrite lookup_alter_ne, lookup_insert_ne.
Qed.

Lemma run_UserCreate_fresh s i r k : users (st_db s) !! i = None ->
  run s (UserCreate i r k) =
  with_prefix [ECreate TUser i true] (run (set_users (<[i := r]> (users (st_db s))) s) (k true)).
Proof. intros H. simpl. rewrite gm_create_fresh by done. apply push_with_prefix. Qed.

Lemma set_users_same s : set_users (users (st_db s)) s = s.
Proof. by destruct s as [[] ? ?]. Qed.

(** A join event of the target guild, once the membership gate is set,
    leaves exactly one [User] row changed: the member's, which then carries
    the member's name, avatar hash, join and creation times and staff flag
    (whether they hold the staff role), and keeps the stored [opt_out] and
    [bot] when the row existed (false for a new row). *)
Theorem on_member_join_row (cfg : bot_config) (m : member) (s : state)
    (Hgate : sync_process_complete s = true) (Hguild : m_guild_id m = guild_id cfg) :
  let '(o, s', _) := run s (on_member_join cfg m) in
  o = Finished /\
  exists u, s' = set_users (<[m_id m := u]> (users (st_db s))) s /\
    u_name u = m_name m /\ u_avatar_hash u = m_avatar m /\
    u_joined_at u = m_joined_at m /\ u_created_at u = m_created_at m /\
    u_is_staff u = member_is_staff cfg m /\
    u_opt_out u = match users (st_db s) !! m_id m with Some r => u_opt_out r | None => false end /\
    u_bot u = match users (st_db s) !! m_id m with Some r => u_bot r | None => false end.
Proof.
  unfold on_member_join. rewrite run_WaitEv_set by exact Hgate.
  rewrite Hguild, Z.eqb_refl. cbn [negb]. rewrite run_UserGet.
  destruct (users (st_db s) !! m_id m) as [r|] eqn:Hr.
  - rewrite run_UserUpdate. rewrite (gm_update_insert _ _ _ r) by exact Hr.
    cbn. split; [done|]. eexists. split; [reflexivity|]. repeat split.
  - rewrite run_UserCreate_fresh by exact Hr.
    cbn. split; [done|]. eexists. split; [reflexivity|]. repeat split.
Qed.

(** An update event of the target guild for a member with a join time, once
    the membership gate is set: a member without a row is created; a row
    whose test says nothing changed is left alone, with no write; otherwise
    the member's fields are written over the row and nothing else changes. *)
Theorem on_member_update_row (cfg : bot_config) (before m : member) (s : state) (j : Z)
    (Hgate : sync_process_complete s = true) (Hguild : m_guild_id m = guild_id cfg)
    (Hjoined : m_joined_at m = Some j) :
  let '(o, s', t) := run s (on_member_update cfg before m) in
  o = Finished /\
  (users (st_db s) !! m_id m = None ->
     s' = set_users (<[m_id m := member_create_row cfg m]> (users (st_db s))) s) /\
  (forall r, users (st_db s) !! m_id m = Some r -> update_needed cfg r m = false ->
     s' = s /\ t = [EWait SyncProcessComplete; EGet TUser (m_id m)]) /\
  (forall r, users (st_db s) !! m_id m = Some r -> update_needed cfg r m = true ->
     s' = set_users (<[m_id m := member_update_fields cfg m r]> (users (st_db s))) s).
Proof.
  unfold on_member_update. rewrite run_WaitEv_set by exact Hgate.
  rewrite Hguild, Z.eqb_refl, Hjoined. cbn [negb]. rewrite run_UserGet.
  destruct (users (st_db s) !! m_id m) as [r|] eqn:Hr.
  - destruct (update_needed cfg r m) eqn:Hn.
    + rewrite run_UserUpdate, (gm_update_insert _ _ _ r) by exact Hr. cbn.
      split; [done|]. split; [discriminate|]. split.
      * intros r' [= <-]. congruence.
      * intros r' [= <-] _. reflexivity.
    + cbn. split; [done|]. split; [discriminate|]. split.
      * intros r' [= <-] _. done.
      * intros r' [= <-]. congruence.
  - rewrite run_UserCreate_fresh by exact Hr. cbn.
    split; [done|]. split; [done|]. split; intros r'; discriminate.
Qed.

Lemma opt_out_kept_users (s s' : state) :
  users (st_db s') = users (st_db s) -> opt_out_kept s s'.
Proof. intros E i r Hr. exists r. by rewrite E. Qed.

Lemma opt_out_kept_insert (s s' : state) (i : Z) (u : user_row) :
  users (st_db s') = <[i := u]> (users (st_db s)) ->
  (forall r, users (st_db s) !! i = Some r -> u_opt_out u = u_opt_out r) ->
  opt_out_kept s s'.
Proof.
  intros E Hu k r Hr. rewrite E. destruct (decide (i = k)) as [<-|Hne].
  - exists u. rewrite lookup_insert_eq. split; [done|]. by apply Hu.
  - exists r. by rewrite lookup_insert_ne.
Qed.

Lemma opt_out_kept_trans (s1 s2 s3 : state) :
  opt_out_kept s1 s2 -> opt_out_kept s2 s3 -> opt_out_kept s1 s3.
Proof.
  intros H12 H23 i r Hr. destruct (H12 i r Hr) as (r2 & H2 & E2).
  destruct (H23 i r2 H2) as (r3 & H3 & E3). exists r3. split; [done|congruence].
Qed.

Lemma bulk_upsert_app (rs1 rs2 : list bulk_user) (m : gmap Z user_row) :
  bulk_upsert (rs1 ++ rs2) m = bulk_upsert rs2 (bulk_upsert rs1 m).
Proof. unfold bulk_upsert. apply fold_left_app. Qed.

Lemma bulk_upsert_keeps_opt_out (rows : list bulk_user) (m : gmap Z user_row) (i : Z) (r : user_row) :
  m !! i = Some r -> exists r', bulk_upsert rows m !! i = Some r' /\ u_opt_out r' = u_opt_out r.
Proof.
  revert m r. induction rows as [|u rows IH]; intros m r Hr; [by exists r|].
  change (bulk_upsert (u :: rows) m) with (bulk_upsert rows (upsert_one u m)).
  unfold upsert_one at 1. destruct (decide (bu_id u = i)) as [<-|Hne].
  - edestruct IH as (r' & H' & E'); [apply lookup_insert_eq|].
    exists r'. split; [exact H'|]. rewrite E'. cbn. by rewrite Hr.
  - apply IH. by rewrite lookup_insert_ne.
Qed.

Lemma bulk_upsert_notin (rows : list bulk_user) (m : gmap Z user_row) (i : Z) :
  ~ In i (map bu_id rows) -> bulk_upsert rows m !! i = m !! i.
Proof.
  revert m. induction rows as [|u rows IH]; intros m Hi; [done|].
  change (bulk_upsert (u :: rows) m) with (bulk_upsert rows (upsert_one u m)).
  cbn in Hi. rewrite IH by tauto. unfold upsert_one. rewrite lookup_insert_ne; [done|].
  intros E. apply Hi. by left.
Qed.

Lemma bulk_upsert_row (rows : list bulk_user) (m : gmap Z user_row) (u : bulk_user) :
  NoDup (map bu_id rows) -> In u rows ->
  bulk_upsert rows m !! bu_id u =
  Some {| u_name := bu_name u; u_avatar_hash := bu_avatar_hash u;
          u_joined_at := bu_joined_at u; u_created_at := bu_created_at u;
          u_is_staff := bu_is_staff u; u_bot := bu_bot u;
          u_opt_out := match m !! bu_id u with Some r => u_opt_out r | None => false end |}.
Proof.
  revert m. induction rows as [|x rows IH]; intros m Hnd Hin; [destruct Hin|].
  cbn [map] in Hnd. apply NoDup_cons in Hnd as [Hx Hnd]. rewrite list_elem_of_In in Hx.
  change (bulk_upsert (x :: rows) m) with (bulk_upsert rows (upsert_one x m)).
  destruct Hin as [<-|Hin].
  - rewrite bulk_upsert_notin by exact Hx. unfold upsert_one. by rewrite lookup_insert_eq.
  - rewrite IH by done. unfold upsert_one. rewrite lookup_insert_ne; [done|].
    intros E. apply Hx. rewrite E. by apply in_map.
Qed.

Lemma run_upsert_chunks_state (cs : list (list bulk_user)) (k : prog) (s : state) :
  run s (upsert_chunks cs k) =
  with_prefix (map (fun c => EBulkUpsert (length c)) cs)
    (run (set_users (bulk_upsert (concat cs) (users (st_db s))) s) k).
Proof.
  revert s. induction cs as [|c cs IH]; intros s; cbn [upsert_chunks map concat].
  - rewrite with_prefix_nil. unfold bulk_upsert at 1. cbn [fold_left].
    by rewrite set_users_same.
  - rewrite run_UserBulkUpsert, IH, with_prefix_app. cbn [app].
    by rewrite bulk_upsert_app.
Qed.

Lemma opt_out_kept_sync_channels (cfg : bot_config) (g : guild) (s : state) :
  let '(_, s', _) := run s (sync_channels cfg g) in users (st_db s') = users (st_db s).
Proof.
  destruct (run_sync_channels cfg g s) as [t [_ ->]].
  by destruct (channel_writes cfg (g_channels g)).2.
Qed.

Lemma on_message_frame_users (cfg : bot_config) (msg : dmessage) (s : state) :
  let '(_, s', _) := run s (on_message cfg msg) in users (st_db s') = users (st_db s).
Proof.
  unfold on_message.
  destruct (msg_guild msg) as [gid|]; [|reflexivity].
  destruct (negb _); [reflexivity|].
  destruct (channel_sync_in_progress s) eqn:Hg;
    [|by rewrite run_WaitEv_unset].
  rewrite run_WaitEv_set by done. rewrite run_UserGet.
  destruct (users (st_db s) !! msg_author_id msg) as [u|]; [|reflexivity].
  destruct (u_opt_out u); [reflexivity|].
  destruct (py_in _ _); [reflexivity|].
  simpl. unfold gm_create. by destruct (messages (st_db s) !! msg_id msg).
Qed.

(** Closes a goal about the run of a store command [p] with the hypothesis
    [Hmem] that covers every such command. *)
Local Ltac use_Hmem :=
  match goal with
  | Hmem : forall p : prog, _ -> _ |- context [run ?s ?p] =>
      let H := fresh in
      pose proof (Hmem p) as H; destruct (run s p) as [[? ?] ?]; cbn; apply H
  end.

(** No handler deletes a [User] row or changes its [opt_out] column: the
    member handlers write [opt_out] back unchanged, [on_message] and the
    channel handlers do not write users, and the roster upsert keeps it on
    existing rows. *)
Theorem handlers_keep_opt_out (cfg : bot_config) (before m : member) (msg : dmessage)
    (before_ch : gchannel) (g : guild) (s : state) :
  (let '(_, s', _) := run s (on_member_join cfg m) in opt_out_kept s s') /\
  (let '(_, s', _) := run s (on_member_update cfg before m) in opt_out_kept s s') /\
  (let '(_, s', _) := run s (on_message cfg msg) in opt_out_kept s s') /\
  (let '(_, s', _) := run s (on_guild_channel_create cfg g) in opt_out_kept s s') /\
  (let '(_, s', _) := run s (on_guild_channel_update cfg before_ch g) in opt_out_kept s s') /\
  (let '(_, s', _) := run s (on_guild_available cfg g) in opt_out_kept s s').
Proof.
  assert (Hsync : let '(_, s', _) := run s (sync_channels cfg g) in opt_out_kept s s').
  { pose proof (opt_out_kept_sync_channels cfg g s) as H.
    destruct (run s (sync_channels cfg g)) as [[o s'] t]. by apply opt_out_kept_users. }
  assert (Hmem : forall p : prog,
    (p = Ret \/ (exists r, users (st_db s) !! m_id m = Some r /\
        p = UserUpdate (m_id m) (member_update_fields cfg m) Ret) \/
     users (st_db s) !! m_id m = None /\
        p = UserCreate (m_id m) (member_create_row cfg m) (fun ok => if ok then Ret else Ret)) ->
    let '(_, s', _) := run s p in opt_out_kept s s').
  { intros p [->|[(r & Hr & ->)|(Hr & ->)]].
    - by apply opt_out_kept_users.
    - rewrite run_UserUpdate, (gm_update_insert _ _ _ r) by exact Hr. cbn.
      eapply opt_out_kept_insert; [reflexivity|]. intros r' Hr'.
      rewrite Hr in Hr'. by injection Hr' as <-.
    - rewrite run_UserCreate_fresh by exact Hr. cbn.
      eapply opt_out_kept_insert; [reflexivity|]. intros r' Hr'. congruence. }
  assert (Hwait : forall k, (let '(_, s', _) := run s k in opt_out_kept s s') ->
            let '(_, s', _) := run s (WaitEv SyncProcessComplete k) in opt_out_kept s s').
  { intros k Hk. destruct (sync_process_complete s) eqn:Hg.
    - rewrite run_WaitEv_set by exact Hg. destruct (run s k) as [[o s'] t]. exact Hk.
    - rewrite run_WaitEv_unset by exact Hg. by apply opt_out_kept_users. }
  repeat split.
  - apply Hwait. destruct (negb _); [apply Hmem; by left|].
    rewrite run_UserGet.
    destruct (users (st_db s) !! m_id m) as [r|] eqn:Hr; use_Hmem.
    + right. left. by exists r.
    + right. right. done.
  - apply Hwait. destruct (negb _); [apply Hmem; by left|].
    destruct (m_joined_at m); [|apply Hmem; by left].
    rewrite run_UserGet.
    destruct (users (st_db s) !! m_id m) as [r|] eqn:Hr;
      [destruct (update_needed cfg r m)|]; use_Hmem.
    + right. left. by exists r.
    + by left.
    + right. right. done.
  - pose proof (on_message_frame_users cfg msg s) as H.
    destruct (run s (on_message cfg msg)) as [[o s'] t]. by apply opt_out_kept_users.
  - unfold on_guild_channel_create. destruct (negb _); [by apply opt_out_kept_users|exact Hsync].
  - unfold on_guild_channel_update. destruct (negb _); [by apply opt_out_kept_users|exact Hsync].
  - unfold on_guild_available. destruct (negb _); [by apply opt_out_kept_users|].
    rewrite run_seq. destruct (run s (sync_channels cfg g)) as [[o s1] t1].
    destruct o; [|exact Hsync|exact Hsync].
    rewrite run_upsert_chunks_state, run_SetEv, with_prefix_app. cbn.
    eapply opt_out_kept_trans; [exact Hsync|].
    intros i r Hr. by apply bulk_upsert_keeps_opt_out.
Qed.

Lemma bulk_ids_of_members (cfg : bot_config) (ms : list member) :
  map bu_id (map (bulk_row_of cfg) ms) = map m_id ms.
Proof. rewrite map_map. by apply map_ext. Qed.

(** When the channel sync of [on_guild_available] raises (a text channel
    outside any category), the roster is not written: no bulk upsert, the
    [User] table is unchanged and the membership gate is not set. *)
Theorem on_guild_available_sync_raises (cfg : bot_config) (g : guild) (s : state)
    (Hguild : g_id g = guild_id cfg)
    (Hbad : existsb uncategorised_text (g_channels g) = true) :
  let '(o, s', t) := run s (on_guild_available cfg g) in
  o = Raised AttributeError /\
  users (st_db s') = users (st_db s) /\
  sync_process_complete s' = sync_process_complete s /\
  List.filter membership_event t = [].
Proof.
  unfold on_guild_available. rewrite Hguild, Z.eqb_refl. cbn [negb].
  rewrite run_seq. destruct (run_sync_channels cfg g s) as [t [Ht ->]].
  rewrite channel_writes_error, Hbad. cbn.
  repeat split. by rewrite (topology_events_not_membership t Ht).
Qed.

(** When the channel sync succeeds and the member ids are distinct,
    [on_guild_available] ends with both gates set, and every member of the
    guild has a [User] row carrying the member's fields (staff flag from the
    staff role, [bot] from the member), with the [opt_out] stored before
    (false for a new row); users outside the roster are untouched. *)
Theorem on_guild_available_roster (cfg : bot_config) (g : guild) (s : state)
    (Hguild : g_id g = guild_id cfg)
    (Hok : existsb uncategorised_text (g_channels g) = false)
    (Hids : NoDup (map m_id (g_members g))) :
  let '(o, s', _) := run s (on_guild_available cfg g) in
  o = Finished /\ sync_process_complete s' = true /\ channel_sync_in_progress s' = true /\
  (forall mb, In mb (g_members g) ->
     users (st_db s') !! m_id mb =
     Some {| u_name := m_name mb; u_avatar_hash := m_avatar mb;
             u_joined_at := m_joined_at mb; u_created_at := m_created_at mb;
             u_is_staff := member_is_staff cfg mb; u_bot := m_bot mb;
             u_opt_out := match users (st_db s) !! m_id mb with
                          | Some r => u_opt_out r | None => false end |}) /\
  (forall i, ~ In i (map m_id (g_members g)) -> users (st_db s') !! i = users (st_db s) !! i).
Proof.
  unfold on_guild_available. rewrite Hguild, Z.eqb_refl. cbn [negb].
  rewrite run_seq. destruct (run_sync_channels cfg g s) as [t [_ ->]].
  rewrite channel_writes_error, Hok.
  rewrite run_upsert_chunks_state, run_SetEv, with_prefix_app.
  destruct (gen_chunks_props 2500 (map (bulk_row_of cfg) (g_members g))) as [Hc _]; [lia|].
  rewrite Hc. cbn. repeat split.
  - intros mb Hin.
    apply (bulk_upsert_row _ (users (st_db s)) (bulk_row_of cfg mb)).
    + by rewrite bulk_ids_of_members.
    + by apply in_map.
  - intros i Hi. apply bulk_upsert_notin. by rewrite bulk_ids_of_members.
Qed.

(** [gen_chunks] for any positive chunk size: the chunks concatenate
    back to the input, each is non-empty and at most [chunk_size] long, all
    but the last are full, and there are [ceil(len / chunk_size)] of them. *)
Theorem gen_chunks_spec {A} (l : list A) (n : nat) (Hn : (0 < n)%nat) :
  concat (gen_chunks l n) = l /\
  Forall (fun c => c <> [] /\ (length c <= n)%nat) (gen_chunks l n) /\
  Forall (fun c => length c = n) (removelast (gen_chunks l n)) /\
  length (gen_chunks l n) = ((length l + n - 1) / n)%nat.
Proof.
  destruct (gen_chunks_props n l Hn) as (H1 & H2 & H3).
  repeat split; [done..|].
  unfold gen_chunks, py_range0. by rewrite !length_map, length_seq.
Qed.

(** ** Witnesses of the further properties *)

Lemma sync_channels_stored_rows_witness :
  NoDup (map gch_id (g_channels ex_guild)) /\
  let '(o, s', _) := run ex_state_no_users (sync_channels ex_cfg ex_guild) in
  o = Finished /\
  categories (st_db s') !! 60 = Some {| cat_name := "staff" |} /\
  channels (st_db s') !! 100 =
    Some {| chan_name := "mods"; chan_category_id := Some 60; chan_is_staff := true |}.
Proof.
  assert (Hnd : NoDup (map gch_id (g_channels ex_guild))).
  { apply (bool_decide_unpack _). vm_compute. reflexivity. }
  split; [exact Hnd|].
  pose proof (sync_channels_stored_rows ex_cfg ex_guild ex_state_no_users Hnd) as H.
  destruct (run ex_state_no_users (sync_channels ex_cfg ex_guild)) as [[o s'] t] eqn:E.
  assert (Ho : o = Finished) by (vm_compute in E; congruence).
  split; [exact Ho|].
  destruct (H Ho ex_staff_category) as [Hcat _]; [simpl; tauto|].
  destruct (H Ho ex_text_channel) as [_ [Htxt _]]; [simpl; tauto|].
  split; [exact (Hcat eq_refl)|].
  destruct (Htxt eq_refl eq_refl) as (c & Hc & Hrow).
  cbn in Hc. injection Hc as <-. exact Hrow.
Defined.

Lemma topology_handlers_other_guild_witness :
  g_id ex_other_guild <> guild_id ex_cfg /\
  run ex_state (on_guild_channel_create ex_cfg ex_other_guild) = (Finished, ex_state, []) /\
  run ex_state (on_guild_channel_update ex_cfg ex_uncategorised ex_other_guild) =
    (Finished, ex_state, []) /\
  run ex_state (on_guild_available ex_cfg ex_other_guild) = (Finished, ex_state, []).
Proof.
  assert (H : g_id ex_other_guild <> guild_id ex_cfg) by (cbn; lia).
  split; [exact H|]. exact (topology_handlers_other_guild ex_cfg ex_uncategorised ex_other_guild ex_state H).
Defined.

Lemma member_handlers_wait_for_roster_witness :
  sync_process_complete (set_gate SyncProcessComplete false ex_state) = false /\
  run (set_gate SyncProcessComplete false ex_state) (on_member_join ex_cfg ex_outsider) =
    (Blocked SyncProcessComplete, set_gate SyncProcessComplete false ex_state, []) /\
  run (set_gate SyncProcessComplete false ex_state) (on_member_update ex_cfg ex_outsider ex_outsider) =
    (Blocked SyncProcessComplete, set_gate SyncProcessComplete false ex_state, []).
Proof.
  split; [reflexivity|].
  apply member_handlers_wait_for_roster. reflexivity.
Defined.

Lemma member_handlers_other_guild_witness :
  sync_process_complete ex_state = true /\ m_guild_id ex_outsider <> guild_id ex_cfg /\
  run ex_state (on_member_join ex_cfg ex_outsider) = (Finished, ex_state, [EWait SyncProcessComplete]) /\
  run ex_state (on_member_update ex_cfg ex_outsider ex_outsider) =
    (Finished, ex_state, [EWait SyncProcessComplete]).
Proof.
  assert (H : m_guild_id ex_outsider <> guild_id ex_cfg) by (cbn; lia).
  split; [reflexivity|]. split; [exact H|].
  apply member_handlers_other_guild; [reflexivity|exact H].
Defined.

(** Alice rejoins without the staff role: her row is rewritten as not staff,
    keeping her [opt_out]. *)
Lemma on_member_join_row_witness :
  sync_process_complete ex_state = true /\ m_guild_id (ex_member []) = guild_id ex_cfg /\
  let '(o, s', _) := run ex_state (on_member_join ex_cfg (ex_member [])) in
  o = Finished /\
  exists u, s' = set_users (<[9 := u]> (users (st_db ex_state))) ex_state /\
    u_is_staff u = false /\ u_opt_out u = false.
Proof.
  split; [reflexivity|]. split; [reflexivity|].
  pose proof (on_member_join_row ex_cfg (ex_member []) ex_state eq_refl eq_refl) as H.
  destruct (run ex_state (on_member_join ex_cfg (ex_member []))) as [[o s'] t].
  destruct H as [Ho (u & Hs & _ & _ & _ & _ & Hstaff & Hopt & _)].
  split; [exact Ho|]. exists u. split; [exact Hs|]. split.
  - rewrite Hstaff. reflexivity.
  - rewrite Hopt. reflexivity.
Defined.

(** Alice, stored as staff, loses the staff role: the test of the handler
    sees no change and nothing is written. *)
Lemma on_member_update_row_witness :
  sync_process_complete ex_state = true /\ m_guild_id (ex_member []) = guild_id ex_cfg /\
  m_joined_at (ex_member []) = Some 10 /\
  users (st_db ex_state) !! 9 = Some ex_alice /\ u_is_staff ex_alice = true /\
  update_needed ex_cfg ex_alice (ex_member []) = false /\
  let '(_, s', t) := run ex_state (on_member_update ex_cfg (ex_member [7]) (ex_member [])) in
  s' = ex_state /\ t = [EWait SyncProcessComplete; EGet TUser 9].
Proof.
  do 6 (split; [reflexivity|]).
  pose proof (on_member_update_row ex_cfg (ex_member [7]) (ex_member []) ex_state 10
                eq_refl eq_refl eq_refl) as H.
  destruct (run ex_state (on_member_update ex_cfg (ex_member [7]) (ex_member []))) as [[o s'] t].
  destruct H as (_ & _ & H & _). exact (H ex_alice eq_refl eq_refl).
Defined.

Lemma on_guild_available_sync_raises_witness :
  g_id ex_guild_uncategorised = guild_id ex_cfg /\
  existsb uncategorised_text (g_channels ex_guild_uncategorised) = true /\
  let '(o, s', t) := run ex_state_no_users (on_guild_available ex_cfg ex_guild_uncategorised) in
  o = Raised AttributeError /\
  users (st_db s') = users (st_db ex_state_no_users) /\
  sync_process_complete s' = sync_process_complete ex_state_no_users /\
  List.filter membership_event t = [].
Proof.
  split; [reflexivity|]. split; [reflexivity|].
  apply on_guild_available_sync_raises; reflexivity.
Defined.

(** The roster of two is stored over a table that holds Alice: Bob gets a
    new row marked as a bot, Alice keeps her [opt_out]. *)
Lemma on_guild_available_roster_witness :
  g_id ex_small_roster = guild_id ex_cfg /\
  existsb uncategorised_text (g_channels ex_small_roster) = false /\
  NoDup (map m_id (g_members ex_small_roster)) /\
  let '(o, s', _) := run ex_state (on_guild_available ex_cfg ex_small_roster) in
  o = Finished /\ sync_process_complete s' = true /\
  users (st_db s') !! 12 =
    Some {| u_name := "bob"; u_avatar_hash := None; u_joined_at := Some 11;
            u_created_at := 4; u_is_staff := false; u_bot := true; u_opt_out := false |} /\
  users (st_db s') !! 9 =
    Some {| u_name := "alice"; u_avatar_hash := Some "h"; u_joined_at := Some 10;
            u_created_at := 5; u_is_staff := true; u_bot := false; u_opt_out := false |}.
Proof.
  assert (Hnd : NoDup (map m_id (g_members ex_small_roster))).
  { apply (bool_decide_unpack _). vm_compute. reflexivity. }
  split; [reflexivity|]. split; [reflexivity|]. split; [exact Hnd|].
  pose proof (on_guild_available_roster ex_cfg ex_small_roster ex_state eq_refl eq_refl Hnd) as H.
  destruct (run ex_state (on_guild_available ex_cfg ex_small_roster)) as [[o s'] t].
  destruct H as (Ho & Hg & _ & Hrow & _).
  split; [exact Ho|]. split; [exact Hg|]. split.
  - change 12 with (m_id ex_bob). rewrite (Hrow ex_bob); [reflexivity|]. simpl; tauto.
  - change 9 with (m_id (ex_member [7])). rewrite (Hrow (ex_member [7])); [reflexivity|].
    simpl; tauto.
Defined.

Lemma gen_chunks_spec_witness :
  (0 < 3)%nat /\
  concat (gen_chunks [1; 2; 3; 4; 5; 6; 7] 3) = [1; 2; 3; 4; 5; 6; 7] /\
  Forall (fun c => c <> [] /\ (length c <= 3)%nat) (gen_chunks [1; 2; 3; 4; 5; 6; 7] 3) /\
  Forall (fun c => length c = 3%nat) (removelast (gen_chunks [1; 2; 3; 4; 5; 6; 7] 3)) /\
  length (gen_chunks [1; 2; 3; 4; 5; 6; 7] 3) = ((7 + 3 - 1) / 3)%nat.
Proof. split; [lia|]. apply gen_chunks_spec. lia. Defined.
